(** * Table block editor, link picker screen and edit-site header

    A shallow embedding of three view components of the block editor:

    - [TableEdit] (the edit form of the table block), whose event handlers
      read the block attributes, call the pure helpers of [./state] and
      submit the result through [setAttributes];
    - [LinkPickerScreen] (the mobile link picker), whose two callbacks talk
      to the navigation stack and to the interaction manager;
    - [Header] (the edit-site header), which decides whether the block
      toolbar is displayed.

    JavaScript objects are records, tagged objects are inductive types,
    arrays are lists, [undefined] is [None], and the calls a handler makes
    to its host (setAttributes, navigation, ...) are recorded in order. *)

From Stdlib Require Import ZArith String Ascii.
From stdpp Require Import base decidable option list strings pretty.

Local Open Scope string_scope.

(** ** The table attributes *)

Module TableBlock.

(** A cell: [{ content, tag, scope, align }]; [scope] and [align] may be
    absent. *)
Inductive CellTag := th | td.

Record Cell := mkCell {
  content : string;
  tag : CellTag;
  scope : option string;
  align : option string;
}.

(** A row: [{ cells: [...] }]. *)
Record Row := mkRow { cells : list Cell }.

Inductive SectionName := Head | Body | Foot.

#[global] Instance CellTag_eq_dec : EqDecision CellTag.
Proof. solve_decision. Defined.

#[global] Instance SectionName_eq_dec : EqDecision SectionName.
Proof. solve_decision. Defined.

(** The block attributes the component destructures:
    [{ hasFixedLayout, caption, head, body, foot }]. *)
Record Attributes := mkAttributes {
  hasFixedLayout : bool;
  caption : string;
  head : list Row;
  body : list Row;
  foot : list Row;
}.

(** [attributes[ name ]] for one of the three section names. *)
Definition getSection (attributes : Attributes) (name : SectionName) : list Row :=
  match name with
  | Head => head attributes
  | Body => body attributes
  | Foot => foot attributes
  end.

(** The argument of [setAttributes] is a partial object: the keys it holds
    replace those of the block attributes, the other keys are kept. *)
Record AttributesPatch := mkPatch {
  newHasFixedLayout : option bool;
  newCaption : option string;
  newHead : option (list Row);
  newBody : option (list Row);
  newFoot : option (list Row);
}.

Definition emptyPatch : AttributesPatch := mkPatch None None None None None.

(** [{ [ sectionName ]: rows }]. *)
Definition sectionPatch (name : SectionName) (rows : list Row) : AttributesPatch :=
  match name with
  | Head => mkPatch None None (Some rows) None None
  | Body => mkPatch None None None (Some rows) None
  | Foot => mkPatch None None None None (Some rows)
  end.

(** [{ head, body, foot }]. *)
Definition sectionsPatch (h b f : list Row) : AttributesPatch :=
  mkPatch None None (Some h) (Some b) (Some f).

Definition mergeAttributes (attributes : Attributes) (patch : AttributesPatch)
  : Attributes :=
  {| hasFixedLayout := default (hasFixedLayout attributes) (newHasFixedLayout patch);
     caption := default (caption attributes) (newCaption patch);
     head := default (head attributes) (newHead patch);
     body := default (body attributes) (newBody patch);
     foot := default (foot attributes) (newFoot patch) |}.

(** ** Selections

    The [selectedCell] state only ever holds objects of type ['cell']:
    [{ sectionName, rowIndex, columnIndex, type: 'cell' }], where
    [onInsertColumn] leaves [sectionName] out.  [onChangeColumnAlignment]
    builds [{ type: 'column', columnIndex }].  The [type] key is the tag
    of the union. *)
Record CellSelection := mkCellSelection {
  sectionName : option SectionName;
  rowIndex : nat;
  columnIndex : nat;
}.

Inductive Selection :=
| SelectCell (selection : CellSelection)
| SelectColumn (column : nat).

Inductive SelectionType := cell | column.

Definition type (selection : Selection) : SelectionType :=
  match selection with
  | SelectCell _ => cell
  | SelectColumn _ => column
  end.

(** ** Text-field values and [parseInt]

    [initialRowCount] and [initialColumnCount] start as the number [2] and
    are then replaced by whatever the text control reports, a string.
    A string is a sequence of code units below 256, one per character. *)
Inductive FieldValue :=
| NumberValue (n : Z)
| StringValue (s : string).

(** The result of [parseInt]: [NaN] or an integer.  The sign of zero and
    the rounding of integers beyond 2^53 are not represented; neither
    changes whether the result is falsy. *)
Inductive ParsedInt :=
| NaN
| Int (z : Z).

Definition isWhiteSpace (a : ascii) : bool :=
  let n := nat_of_ascii a in
  (n =? 9)%nat || (n =? 10)%nat || (n =? 11)%nat || (n =? 12)%nat
  || (n =? 13)%nat || (n =? 32)%nat || (n =? 160)%nat.

Definition digitValue (a : ascii) : option Z :=
  let n := nat_of_ascii a in
  if ((48 <=? n)%nat && (n <=? 57)%nat)%bool then Some (Z.of_nat (n - 48)) else None.

Fixpoint trimStart (s : string) : string :=
  match s with
  | String a rest => if isWhiteSpace a then trimStart rest else s
  | EmptyString => s
  end.

(** The value of the longest prefix of decimal digits, on top of [acc]. *)
Fixpoint digitsValue (acc : Z) (s : string) : Z :=
  match s with
  | String a rest =>
      match digitValue a with
      | Some d => digitsValue (10 * acc + d) rest
      | None => acc
      end
  | EmptyString => acc
  end.

Definition startsWithDigit (s : string) : bool :=
  match s with
  | String a _ => bool_decide (is_Some (digitValue a))
  | EmptyString => false
  end.

(** [ToString] of a field value; numbers are integers printed in
    decimal, as JavaScript prints them below 10^21. *)
Definition toString (v : FieldValue) : string :=
  match v with
  | NumberValue n => pretty n
  | StringValue s => s
  end.

(** [parseInt( v, 10 )]: skip leading white space, read an optional sign,
    then the longest run of decimal digits; [NaN] when there is none. *)
Definition parseInt (v : FieldValue) : ParsedInt :=
  let s := trimStart (toString v) in
  let '(sign, s) :=
    match s with
    | String "-" rest => ((-1)%Z, rest)
    | String "+" rest => (1%Z, rest)
    | _ => (1%Z, s)
    end in
  if startsWithDigit s then Int (sign * digitsValue 0 s) else NaN.

(** [x || fallback] on a parsed number: [NaN] and [0] are falsy. *)
Definition orElse (x : ParsedInt) (fallback : Z) : Z :=
  match x with
  | NaN => fallback
  | Int 0 => fallback
  | Int z => z
  end.

(** [{ ...cellAttributes, content }] and [{ ...cellAttributes, align }]. *)
Definition withContent (newContent : string) (c : Cell) : Cell :=
  mkCell newContent (tag c) (scope c) (align c).

Definition withAlign (newAlign : option string) (c : Cell) : Cell :=
  mkCell (content c) (tag c) (scope c) newAlign.

(** Whether every character of a string is a decimal digit. *)
Fixpoint allDigits (s : string) : bool :=
  match s with
  | String a rest => bool_decide (is_Some (digitValue a)) && allDigits rest
  | EmptyString => true
  end.

End TableBlock.

(** ** The component [TableEdit] *)

Module TableEdit.
Import TableBlock.

(** The helpers imported from [./state].  A JavaScript call either
    returns a value or throws; [None] stands for a call that throws. *)
Class StateHelpers := {
  createTable : Z -> Z -> option AttributesPatch;
  updateSelectedCell :
    Attributes -> Selection -> (Cell -> Cell) -> option AttributesPatch;
  insertRow : Attributes -> option SectionName -> nat -> option AttributesPatch;
  deleteRow : Attributes -> option SectionName -> nat -> option AttributesPatch;
  insertColumn : Attributes -> nat -> option AttributesPatch;
  deleteColumn : Attributes -> option SectionName -> nat -> option AttributesPatch;
  toggleSection : Attributes -> SectionName -> option AttributesPatch;
  isEmptyTableSection : list Row -> bool;
}.

(** What a handler asks of its host, in call order. *)
Inductive HostCall :=
| PreventDefault
| SetAttributes (patch : AttributesPatch).

(** The props and the local state ([useState]) a handler can see, with
    the calls made so far. *)
Record EditState := mkEditState {
  attributes : Attributes;
  initialRowCount : FieldValue;
  initialColumnCount : FieldValue;
  selectedCell : option CellSelection;
  hostCalls : list HostCall;
}.

(** A handler runs to completion or is cut short by an exception; the
    updates made before the exception stay. *)
Inductive Completion (A : Type) :=
| Normal (value : A) (st : EditState)
| Throw (st : EditState).
Arguments Normal {A} value st.
Arguments Throw {A} st.

Definition Handler (A : Type) : Type := EditState -> Completion A.

Definition finalState {A} (c : Completion A) : EditState :=
  match c with
  | Normal _ st => st
  | Throw st => st
  end.

#[global] Instance Handler_ret : MRet Handler :=
  fun A value st => Normal value st.

#[global] Instance Handler_bind : MBind Handler :=
  fun A B k m st =>
    match m st with
    | Normal value st' => k value st'
    | Throw st' => Throw st'
    end.

Definition getState : Handler EditState := fun st => Normal st st.

(** The value of a helper call, or the exception it raised. *)
Definition call {A} (result : option A) : Handler A :=
  fun st =>
    match result with
    | Some value => Normal value st
    | None => Throw st
    end.

(** [setAttributes( patch )]: the host merges the patch into the block
    attributes, which the component sees on its next render. *)
Definition setAttributes (patch : AttributesPatch) : Handler unit :=
  fun st =>
    Normal tt
      (mkEditState (mergeAttributes (attributes st) patch)
         (initialRowCount st) (initialColumnCount st) (selectedCell st)
         (hostCalls st ++ [SetAttributes patch])).

Definition preventDefault : Handler unit :=
  fun st =>
    Normal tt
      (mkEditState (attributes st) (initialRowCount st) (initialColumnCount st)
         (selectedCell st) (hostCalls st ++ [PreventDefault])).

Definition setSelectedCell (selection : option CellSelection) : Handler unit :=
  fun st =>
    Normal tt
      (mkEditState (attributes st) (initialRowCount st) (initialColumnCount st)
         selection (hostCalls st)).

Definition setInitialRowCount (count : FieldValue) : Handler unit :=
  fun st =>
    Normal tt
      (mkEditState (attributes st) count (initialColumnCount st)
         (selectedCell st) (hostCalls st)).

Definition setInitialColumnCount (count : FieldValue) : Handler unit :=
  fun st =>
    Normal tt
      (mkEditState (attributes st) (initialRowCount st) count
         (selectedCell st) (hostCalls st)).

(** The state of a freshly mounted component:
    [useState( 2 )], [useState( 2 )], [useState()]. *)
Definition mount (attrs : Attributes) : EditState :=
  mkEditState attrs (NumberValue 2) (NumberValue 2) None [].

Section Handlers.
Context {helpers : StateHelpers}.

Definition onChangeInitialColumnCount (count : FieldValue) : Handler unit :=
  setInitialColumnCount count.

Definition onChangeInitialRowCount (count : FieldValue) : Handler unit :=
  setInitialRowCount count.

Definition onCreateTable : Handler unit :=
  preventDefault;;
  st ← getState;
  patch ← call (createTable
                  (orElse (parseInt (initialRowCount st)) 2)
                  (orElse (parseInt (initialColumnCount st)) 2));
  setAttributes patch.

Definition onChangeFixedLayout : Handler unit :=
  st ← getState;
  setAttributes
    (mkPatch (Some (negb (hasFixedLayout (attributes st)))) None None None None).

Definition onChange (newContent : string) : Handler unit :=
  st ← getState;
  match selectedCell st with
  | None => mret tt
  | Some selected =>
      patch ← call (updateSelectedCell (attributes st) (SelectCell selected)
                      (withContent newContent));
      setAttributes patch
  end.

Definition onChangeColumnAlignment (newAlign : option string) : Handler unit :=
  st ← getState;
  match selectedCell st with
  | None => mret tt
  | Some selected =>
      let columnSelection := SelectColumn (columnIndex selected) in
      newAttributes ← call (updateSelectedCell (attributes st) columnSelection
                              (withAlign newAlign));
      setAttributes newAttributes
  end.

Definition onToggleHeaderSection : Handler unit :=
  st ← getState;
  patch ← call (toggleSection (attributes st) Head);
  setAttributes patch.

Definition onToggleFooterSection : Handler unit :=
  st ← getState;
  patch ← call (toggleSection (attributes st) Foot);
  setAttributes patch.

Definition onInsertRow (delta : nat) : Handler unit :=
  st ← getState;
  match selectedCell st with
  | None => mret tt
  | Some selected =>
      let newRowIndex := rowIndex selected + delta in
      patch ← call (insertRow (attributes st) (sectionName selected) newRowIndex);
      setAttributes patch;;
      setSelectedCell (Some (mkCellSelection (sectionName selected) newRowIndex 0))
  end.

Definition onInsertRowBefore : Handler unit := onInsertRow 0.
Definition onInsertRowAfter : Handler unit := onInsertRow 1.

Definition onDeleteRow : Handler unit :=
  st ← getState;
  match selectedCell st with
  | None => mret tt
  | Some selected =>
      setSelectedCell None;;
      patch ← call (deleteRow (attributes st) (sectionName selected)
                      (rowIndex selected));
      setAttributes patch
  end.

Definition onInsertColumn (delta : nat) : Handler unit :=
  st ← getState;
  match selectedCell st with
  | None => mret tt
  | Some selected =>
      let newColumnIndex := columnIndex selected + delta in
      patch ← call (insertColumn (attributes st) newColumnIndex);
      setAttributes patch;;
      setSelectedCell (Some (mkCellSelection None 0 newColumnIndex))
  end.

Definition onInsertColumnBefore : Handler unit := onInsertColumn 0.
Definition onInsertColumnAfter : Handler unit := onInsertColumn 1.

Definition onDeleteColumn : Handler unit :=
  st ← getState;
  match selectedCell st with
  | None => mret tt
  | Some selected =>
      setSelectedCell None;;
      patch ← call (deleteColumn (attributes st) (sectionName selected)
                      (columnIndex selected));
      setAttributes patch
  end.

(** [onChange] of the caption, its focus callback, and the effect run
    when the block is no longer selected. *)
Definition onChangeCaption (newCaption : string) : Handler unit :=
  setAttributes (mkPatch None (Some newCaption) None None None).

Definition onFocusCaption : Handler unit := setSelectedCell None.

Definition onSelectionChange (isSelected : bool) : Handler unit :=
  if isSelected then mret tt else setSelectedCell None.

(** *** Rendering *)

Definition isEmpty (attrs : Attributes) : bool :=
  isEmptyTableSection (head attrs)
  && isEmptyTableSection (body attrs)
  && isEmptyTableSection (foot attrs).

(** One [RichText] cell of the rendered table. *)
Record CellView := mkCellView {
  tagName : CellTag;
  className : string;
  scopeProp : option string;
  value : string;
  placeholder : string;
  location : CellSelection;
}.

(** [<thead>], [<tbody>] or [<tfoot>] with its rows of cells. *)
Record SectionView := mkSectionView {
  sectionTag : string;
  rowViews : list (list CellView);
}.

(** The state of the controls: the six entries of the table menu are
    disabled together, and the three toggles of the inspector show
    [!! hasFixedLayout], [!! ( head && head.length )] and
    [!! ( foot && foot.length )]. *)
Record Controls := mkControls {
  tableControlsDisabled : bool;
  fixedLayoutChecked : bool;
  headerSectionChecked : bool;
  footerSectionChecked : bool;
}.

(** What the component returns: the placeholder form, or the controls
    and the figure with the table. *)
Inductive View :=
| PlaceholderView (columnCountField rowCountField : FieldValue)
| TableView (controls : Controls) (sections : list (option SectionView))
    (captionValue : string).

Definition cellClasses (a : option string) : string :=
  match a with
  | Some s => if bool_decide (s = "") then "wp-block-table__cell-content"
              else "has-text-align-" ++ s ++ " wp-block-table__cell-content"
  | None => "wp-block-table__cell-content"
  end.

Definition cellPlaceholder (name : SectionName) : string :=
  match name with
  | Head => "Header label"
  | Foot => "Footer label"
  | Body => ""
  end.

Definition sectionTagName (name : SectionName) : string :=
  match name with
  | Head => "thead"
  | Body => "tbody"
  | Foot => "tfoot"
  end.

Definition renderCell (name : SectionName) (row col : nat) (c : Cell) : CellView :=
  mkCellView (tag c) (cellClasses (align c))
    (if bool_decide (tag c = th) then scope c else None)
    (content c) (cellPlaceholder name)
    (mkCellSelection (Some name) row col).

Definition renderSection (attrs : Attributes) (name : SectionName)
  : option SectionView :=
  let rows := getSection attrs name in
  if isEmptyTableSection rows then None
  else Some (mkSectionView (sectionTagName name)
               (imap (fun row r => imap (renderCell name row) (cells r)) rows)).

Definition render (st : EditState) : View :=
  if isEmpty (attributes st) then
    PlaceholderView (initialColumnCount st) (initialRowCount st)
  else
    TableView
      (mkControls (bool_decide (selectedCell st = None))
         (hasFixedLayout (attributes st))
         (bool_decide (head (attributes st) ≠ []))
         (bool_decide (foot (attributes st) ≠ [])))
      (renderSection (attributes st) <$> [Head; Body; Foot])
      (caption (attributes st)).

(** Focusing a rendered cell selects it. *)
Definition onFocusCell (c : CellView) : Handler unit :=
  setSelectedCell (Some (location c)).

End Handlers.

(** Unfolds a handler down to the completion it computes. *)
Ltac run_handler :=
  unfold onChange, onChangeColumnAlignment, onInsertRow, onDeleteRow,
    onInsertColumn, onDeleteColumn, onCreateTable, onToggleHeaderSection,
    onToggleFooterSection, mbind, mret, Handler_bind, Handler_ret, getState,
    setAttributes, setSelectedCell, preventDefault, call; simpl.

End TableEdit.

(** ** The helpers of [./state] *)

Module State.
Import TableBlock.

(** Modelled from the spec: the helper [isEmptyTableSection] of
    [./state], which is not part of the sources at hand.  "Section is
    considered empty when its row sequence is empty or every row has no
    cells."  First, a row that "has no cells". *)
Definition isEmptyRow (row : Row) : bool :=
  bool_decide (length (cells row) = 0).

(** Modelled from the spec: the same helper, on a whole section. *)
Definition isEmptyTableSection (section : list Row) : bool :=
  bool_decide (length section = 0) || forallb isEmptyRow section.

(** Modelled from the spec: the "blank" cell that the insertions of
    [./state] put in.  No content, a header cell in the head and a data
    cell elsewhere, neither scope nor alignment. *)
Definition blankCell (name : SectionName) : Cell :=
  mkCell "" (if bool_decide (name = Head) then th else td) None None.

(** Modelled from the spec: a "blank row" of [./state], so many blank
    cells. *)
Definition blankRow (name : SectionName) (cellCount : nat) : Row :=
  mkRow (replicate cellCount (blankCell name)).

(** Modelled from the spec: the cell count that "all rows within a
    section" share, read off the first row; a section without rows has
    none. *)
Definition columnCount (section : list Row) : nat :=
  match section with
  | row :: _ => length (cells row)
  | [] => 0
  end.

(** Modelled from the spec: the "array splicing" of [./state],
    [[ ...items.slice( 0, index ), item, ...items.slice( index ) ]]; an
    index past the end appends. *)
Definition spliceIn {A} (index : nat) (item : A) (items : list A) : list A :=
  take index items ++ item :: drop index items.

(** Modelled from the spec: the helper [createTable] of [./state], not
    part of the sources at hand.  It "creates a table based on
    dimensions": a body of [rowCount] rows of [columnCount] blank
    cells. *)
Definition createTable (rowCount colCount : Z) : AttributesPatch :=
  sectionPatch Body (replicate (Z.to_nat rowCount) (blankRow Body (Z.to_nat colCount))).

(** Modelled from the spec: the first row of the table, which
    [insertRow] of [./state] takes as its pattern: the first row of the
    first section, in the order head, body, foot, that is not empty; none
    when the three are empty. *)
Definition getFirstRow (state : Attributes) : option Row :=
  if negb (isEmptyTableSection (head state)) then head state !! 0
  else if negb (isEmptyTableSection (body state)) then body state !! 0
  else if negb (isEmptyTableSection (foot state)) then foot state !! 0
  else None.

(** Modelled from the spec: the cell count of that first row, 0 when
    there is none. *)
Definition firstRowCellCount (state : Attributes) : nat :=
  from_option (fun row => length (cells row)) 0 (getFirstRow state).

(** Modelled from the spec: the alignment a new cell at a column index
    takes over from the cell of the first row in that column. *)
Definition inheritedAlign (firstRow : option Row) (index : nat) : option string :=
  row ← firstRow; c ← cells row !! index; align c.

(** Modelled from the spec: the row [insertRow] puts in, with so many
    cells, each without content, a header cell in the head and a data
    cell elsewhere, aligned as its column is in the first row. *)
Definition insertedRow (name : SectionName) (firstRow : option Row)
    (cellCount : nat) : Row :=
  mkRow ((fun index =>
            mkCell "" (if bool_decide (name = Head) then th else td) None
              (inheritedAlign firstRow index))
           <$> seq 0 cellCount).

(** Modelled from the spec: the whole state handed back as it is. *)
Definition wholePatch (state : Attributes) : AttributesPatch :=
  mkPatch (Some (hasFixedLayout state)) (Some (caption state))
    (Some (head state)) (Some (body state)) (Some (foot state)).

(** Modelled from the spec: the helper [insertRow] of [./state], not part
    of the sources at hand.  "Insert a blank row at index i": the rows of
    the named section are spliced around a new row.  The caller gives the
    section and the index only, and the spec leaves the width of the row
    open; as in the helper published with the block, the row is patterned
    on the first row of the table, whose cell count and alignments it
    takes, and the state comes back unchanged when that count is 0. *)
Definition insertRow (state : Attributes) (name : SectionName) (index : nat)
  : AttributesPatch :=
  let firstRow := getFirstRow state in
  let cellCount := firstRowCellCount state in
  if bool_decide (cellCount = 0) then wholePatch state
  else
    sectionPatch name
      (spliceIn index (insertedRow name firstRow cellCount) (getSection state name)).

(** Modelled from the spec: the helper [deleteRow] of [./state], not part
    of the sources at hand.  The row at the given index leaves the named
    section; an index past the end removes nothing. *)
Definition deleteRow (state : Attributes) (name : SectionName) (index : nat)
  : AttributesPatch :=
  sectionPatch name (delete index (getSection state name)).

(** Modelled from the spec: the helper [insertColumn] of [./state], not
    part of the sources at hand.  The caller names a column index and no
    section: a blank cell is spliced into every row of the three
    sections.  First, one section. *)
Definition insertColumnInto (name : SectionName) (index : nat) (section : list Row)
  : list Row :=
  (fun row => mkRow (spliceIn index (blankCell name) (cells row))) <$> section.

(** Modelled from the spec: [insertColumn] on the three sections. *)
Definition insertColumn (state : Attributes) (index : nat) : AttributesPatch :=
  sectionsPatch
    (insertColumnInto Head index (head state))
    (insertColumnInto Body index (body state))
    (insertColumnInto Foot index (foot state)).

(** Modelled from the spec: the helper [deleteColumn] of [./state], not
    part of the sources at hand.  A column runs through the whole table:
    the cell at the given index leaves every row of the three sections.
    First, one section. *)
Definition deleteColumnFrom (index : nat) (section : list Row) : list Row :=
  (fun row => mkRow (delete index (cells row))) <$> section.

(** Modelled from the spec: [deleteColumn] on the three sections. *)
Definition deleteColumn (state : Attributes) (index : nat) : AttributesPatch :=
  sectionsPatch
    (deleteColumnFrom index (head state))
    (deleteColumnFrom index (body state))
    (deleteColumnFrom index (foot state)).

(** Modelled from the spec: the helper [toggleSection] of [./state], not
    part of the sources at hand.  "Add or remove a table section", as the
    comments of the two callers put it: a section that is not empty is
    removed, its row sequence becoming empty (the toggle of the inspector
    is off only for a section of length 0); an empty one is added as a
    single blank row as wide as the body, with one cell at least so that
    the section is there. *)
Definition toggleSection (state : Attributes) (name : SectionName)
  : AttributesPatch :=
  if isEmptyTableSection (getSection state name) then
    sectionPatch name [blankRow name (Nat.max 1 (columnCount (body state)))]
  else
    sectionPatch name [].

(** Modelled from the spec: whether the cell at a location belongs to a
    selection, for [updateSelectedCell] of [./state]: the very cell of a
    cell selection, every cell of the column of a column selection. *)
Definition isCellSelected (name : SectionName) (row col : nat)
    (selection : Selection) : bool :=
  match selection with
  | SelectColumn c => bool_decide (col = c)
  | SelectCell s =>
      bool_decide (sectionName s = Some name)
      && bool_decide (rowIndex s = row)
      && bool_decide (columnIndex s = col)
  end.

(** Modelled from the spec: the helper [updateSelectedCell] of
    [./state], not part of the sources at hand.  "Update a cell": the
    update function is applied to the cells of the selection, the other
    cells are kept, in the three sections.  First, one section. *)
Definition updateSection (name : SectionName) (selection : Selection)
    (updateCell : Cell -> Cell) (section : list Row) : list Row :=
  imap (fun row r =>
          mkRow (imap (fun col c =>
                         if isCellSelected name row col selection
                         then updateCell c else c)
                   (cells r)))
    section.

(** Modelled from the spec: [updateSelectedCell] on the three
    sections. *)
Definition updateSelectedCell (state : Attributes) (selection : Selection)
    (updateCell : Cell -> Cell) : AttributesPatch :=
  sectionsPatch
    (updateSection Head selection updateCell (head state))
    (updateSection Body selection updateCell (body state))
    (updateSection Foot selection updateCell (foot state)).

(** Modelled from the spec: a row helper of [./state] called with a
    location that names no section.  There is no row sequence to work
    on: the call does not return. *)
Definition inSection {A} (name : option SectionName) (f : SectionName -> A)
  : option A :=
  f <$> name.

(** Modelled from the spec: the module [./state] as the component
    imports it, none of its helpers throwing on a named section. *)
#[global] Instance helpers : TableEdit.StateHelpers := {|
  TableEdit.createTable rowCount colCount := Some (createTable rowCount colCount);
  TableEdit.updateSelectedCell state selection updateCell :=
    Some (updateSelectedCell state selection updateCell);
  TableEdit.insertRow state name index :=
    inSection name (fun n => insertRow state n index);
  TableEdit.deleteRow state name index :=
    inSection name (fun n => deleteRow state n index);
  TableEdit.insertColumn state index := Some (insertColumn state index);
  TableEdit.deleteColumn state _ index := Some (deleteColumn state index);
  TableEdit.toggleSection state name := Some (toggleSection state name);
  TableEdit.isEmptyTableSection := isEmptyTableSection;
|}.

(** The invariant of the spec: "all rows within a section have equal
    cell count (rectangular grid)". *)
Definition isRectangular (section : list Row) : bool :=
  forallb (fun row => bool_decide (length (cells row) = columnCount section)) section.

Definition allRectangular (state : Attributes) : bool :=
  isRectangular (head state) && isRectangular (body state)
  && isRectangular (foot state).

(** [state[ name ][ row ].cells[ col ]], when there is such a cell. *)
Definition getCell (state : Attributes) (name : SectionName) (row col : nat)
  : option Cell :=
  r ← getSection state name !! row; cells r !! col.

(** The attributes after [toggleSection] has been applied twice to the
    same section, each result being submitted to [setAttributes]. *)
Definition toggleOnce (state : Attributes) (name : SectionName) : Attributes :=
  mergeAttributes state (toggleSection state name).

Definition toggleTwice (state : Attributes) (name : SectionName) : Attributes :=
  toggleOnce (toggleOnce state name) name.

(** A table with a filled header row above one body row. *)
Definition exampleTable : Attributes :=
  mkAttributes false "People"
    [mkRow [mkCell "Name" th None None; mkCell "Born" th None (Some "right")]]
    [mkRow [mkCell "Ada" td None None; mkCell "1815" td None (Some "right")]]
    [].

(** A table whose head has one cell where its body rows have two. *)
Definition mixedWidthTable : Attributes :=
  mkAttributes false ""
    [mkRow [mkCell "People" th None None]]
    [mkRow [mkCell "Ada" td None None; mkCell "1815" td None None]]
    [].

(** A table of one column, with a cell of its body selected. *)
Definition singleColumnTable : Attributes :=
  mkAttributes true ""
    [mkRow [mkCell "Name" th None None]]
    [mkRow [mkCell "Ada" td None None]; mkRow [mkCell "Grace" td None None]]
    [].

End State.

(** ** The component [LinkPickerScreen] *)

Module LinkPickerScreen.

(** The picked link, [{ url, title }], and the parameters handed to the
    screen navigated to, [{ inputValue, text }]. *)
Record Link := mkLink { url : string; title : string }.

Record Params := mkParams { inputValue : string; text : string }.

(** Calls on the navigation object. *)
Inductive NavigationCall :=
| navigate (screenName : string) (params : Params)
| goBack.

(** A callback handed to [InteractionManager.runAfterInteractions], as
    the calls it makes on the bottom-sheet context when it runs. *)
Inductive ContextCall :=
| setIsChildrenScrollable (scrollable : bool).

Definition Task := list ContextCall.

(** The host as the screen sees it: the navigation calls received so
    far, the tasks waiting for the end of the interactions, and the flag
    kept by the bottom-sheet context. *)
Record Host := mkHost {
  navigation : list NavigationCall;
  afterInteractions : list Task;
  isChildrenScrollable : bool;
}.

Record Props := mkProps { returnScreenName : string; withPadding : bool }.

Definition callNavigation (c : NavigationCall) (h : Host) : Host :=
  mkHost (navigation h ++ [c]) (afterInteractions h) (isChildrenScrollable h).

Definition runAfterInteractions (task : Task) (h : Host) : Host :=
  mkHost (navigation h) (afterInteractions h ++ [task]) (isChildrenScrollable h).

Definition callContext (c : ContextCall) (h : Host) : Host :=
  match c with
  | setIsChildrenScrollable b => mkHost (navigation h) (afterInteractions h) b
  end.

Definition onLinkPicked (props : Props) (link : Link) (h : Host) : Host :=
  let h := callNavigation
             (navigate (returnScreenName props) (mkParams (url link) (title link))) h in
  runAfterInteractions [setIsChildrenScrollable false] h.

Definition onCancel (h : Host) : Host :=
  let h := callNavigation goBack h in
  runAfterInteractions [setIsChildrenScrollable false] h.

(** The effect run when the screen mounts. *)
Definition onMount (h : Host) : Host :=
  callContext (setIsChildrenScrollable true) h.

(** The interaction manager, once the interactions are over, runs the
    waiting tasks in turn. *)
Definition runTask (task : Task) (h : Host) : Host :=
  foldl (fun h c => callContext c h) h task.

Definition interactionsDone (h : Host) : Host :=
  foldl (fun h task => runTask task h)
    (mkHost (navigation h) [] (isChildrenScrollable h))
    (afterInteractions h).

(** *** Rendering the screen

    The screen returns [useMemo( () => <LinkPicker ... />, [ inputValue ] )]:
    the element is built again only when [route.params.inputValue]
    differs from the one of the render that built it.  An element is the
    [value] it shows and the props its two callbacks and [withPadding]
    were taken from when it was built. *)
Record Element := mkElement {
  value : string;
  captured : Props;
}.

(** The memo cell of the hook: the dependency and the element kept. *)
Record Memo := mkMemo {
  dependency : string;
  memoized : Element;
}.

Definition renderScreen (props : Props) (routeInputValue : string)
    (previous : option Memo) : Memo :=
  let fresh := mkMemo routeInputValue (mkElement routeInputValue props) in
  match previous with
  | Some memo =>
      if bool_decide (dependency memo = routeInputValue) then memo else fresh
  | None => fresh
  end.

(** The [onLinkPicked] and [withPadding] props of a rendered element. *)
Definition elementOnLinkPicked (e : Element) (link : Link) (h : Host) : Host :=
  onLinkPicked (captured e) link h.

Definition elementWithPadding (e : Element) : bool := withPadding (captured e).

End LinkPickerScreen.

(** ** The component [Header] of the site editor *)

Module SiteHeader.

(** What [useSelect] and [useViewportMatch( 'medium' )] hand to the
    component, as far as the toolbar goes. *)
Record Selected := mkSelected {
  deviceType : string;
  hasFixedToolbar : bool;
  isNavigationOpen : bool;
  isInserterOpen : bool;
}.

Definition displayBlockToolbar (isLargeViewport : bool) (s : Selected) : bool :=
  negb isLargeViewport
  || bool_decide (deviceType s ≠ "Desktop")
  || hasFixedToolbar s.

(** The children of [<div className="edit-site-header__toolbar">]. *)
Inductive ToolbarChild :=
| InserterToggle (isPressed : bool)
| ToolSelector
| UndoButton
| RedoButton
| BlockNavigationDropdown
| BlockToolbar
| ToolbarSwitchers.

#[global] Instance ToolbarChild_eq_dec : EqDecision ToolbarChild.
Proof. solve_decision. Defined.

(** [{ cond && element }] renders the element or nothing. *)
Definition renderIf {A} (cond : bool) (element : A) : list A :=
  if cond then [element] else [].

Definition Header (isLargeViewport : bool) (s : Selected) : list ToolbarChild :=
  [InserterToggle (isInserterOpen s); ToolSelector; UndoButton; RedoButton;
   BlockNavigationDropdown]
  ++ renderIf (displayBlockToolbar isLargeViewport s) BlockToolbar
  ++ [ToolbarSwitchers].

End SiteHeader.

(** * Properties *)

(** ** Handlers of [TableEdit], whatever the helpers of [./state] do *)

Section AnyHelpers.
Import TableBlock TableEdit.
Context {helpers : StateHelpers}.

(** C2. With no selected cell, each of the six mutating cell actions
    (content change, column alignment, insert row, delete row, insert
    column, delete column) returns at once: no call to [setAttributes] is
    made and the state, attributes included, is the one it started
    from. *)
Theorem no_selection_no_op (st : EditState) (newContent : string)
    (newAlign : option string) (delta : nat) :
  selectedCell st = None ->
  onChange newContent st = Normal tt st
  /\ onChangeColumnAlignment newAlign st = Normal tt st
  /\ onInsertRow delta st = Normal tt st
  /\ onDeleteRow st = Normal tt st
  /\ onInsertColumn delta st = Normal tt st
  /\ onDeleteColumn st = Normal tt st.
Proof.
  intros Hnone. run_handler. rewrite Hnone. repeat split.
Qed.

(** C5. Submitting the placeholder form calls [createTable] with the row
    and column counts parsed from the two fields in base 10, and hands its
    result to [setAttributes]; a count whose parse is [NaN] or [0] (text
    that is no number, for one) is replaced by [2], any other parsed count
    is passed as it is. *)
Theorem onCreateTable_counts (st : EditState) :
  let rowCount := orElse (parseInt (initialRowCount st)) 2 in
  let colCount := orElse (parseInt (initialColumnCount st)) 2 in
  onCreateTable st =
    match createTable rowCount colCount with
    | Some patch =>
        Normal tt
          (mkEditState (mergeAttributes (attributes st) patch)
             (initialRowCount st) (initialColumnCount st) (selectedCell st)
             (hostCalls st ++ [PreventDefault; SetAttributes patch]))
    | None =>
        Throw
          (mkEditState (attributes st) (initialRowCount st)
             (initialColumnCount st) (selectedCell st)
             (hostCalls st ++ [PreventDefault]))
    end
  /\ (forall v, parseInt v = NaN \/ parseInt v = Int 0 ->
                orElse (parseInt v) 2 = 2%Z)
  /\ (forall v z, parseInt v = Int z -> z <> 0%Z -> orElse (parseInt v) 2 = z)
  /\ parseInt (StringValue "abc") = NaN.
Proof.
  simpl. split; [|split; [|split]].
  - run_handler. destruct (createTable _ _) as [patch|]; simpl; [|done].
    by rewrite <- app_assoc.
  - intros v [-> | ->]; done.
  - intros v z -> Hz. by destruct z.
  - reflexivity.
Qed.

(** C9. When the helper returns, [onInsertRow( delta )] leaves the cell
    selection [{ sectionName, rowIndex + delta, columnIndex: 0 }] with the
    section name of the former selection, and
    [onInsertColumn( delta )] leaves the cell selection
    [{ rowIndex: 0, columnIndex + delta }] without a section name; both
    are selections of type ['cell']. *)
Theorem insertion_moves_selection (st : EditState) (selected : CellSelection)
    (delta : nat) (patch : AttributesPatch) :
  selectedCell st = Some selected ->
  (insertRow (attributes st) (sectionName selected) (rowIndex selected + delta)
     = Some patch ->
   let selection' :=
     mkCellSelection (sectionName selected) (rowIndex selected + delta) 0 in
   onInsertRow delta st =
     Normal tt
       (mkEditState (mergeAttributes (attributes st) patch)
          (initialRowCount st) (initialColumnCount st) (Some selection')
          (hostCalls st ++ [SetAttributes patch]))
   /\ type (SelectCell selection') = cell)
  /\ (insertColumn (attributes st) (columnIndex selected + delta) = Some patch ->
      let selection' := mkCellSelection None 0 (columnIndex selected + delta) in
      onInsertColumn delta st =
        Normal tt
          (mkEditState (mergeAttributes (attributes st) patch)
             (initialRowCount st) (initialColumnCount st) (Some selection')
             (hostCalls st ++ [SetAttributes patch]))
      /\ type (SelectCell selection') = cell).
Proof.
  intros Hsel. split; intros Hpatch; simpl; (split; [|done]);
    run_handler; rewrite Hsel; simpl; by rewrite Hpatch.
Qed.

(** A handler that completes normally after an insertion did get a patch
    from its helper. *)
Lemma onInsertRow_normal_inv (st st' : EditState) (selected : CellSelection)
    (delta : nat) :
  selectedCell st = Some selected ->
  onInsertRow delta st = Normal tt st' ->
  is_Some (insertRow (attributes st) (sectionName selected)
             (rowIndex selected + delta)).
Proof.
  intros Hsel. run_handler. rewrite Hsel. simpl.
  destruct (insertRow _ _ _); [eauto | done].
Qed.

End AnyHelpers.

(** ** The helpers modelled from the spec *)

Section ModelledHelpers.
Import TableBlock TableEdit.

Lemma forallb_Forall {A} (f : A -> bool) (l : list A) :
  forallb f l = true <-> Forall (fun x => f x = true) l.
Proof.
  induction l as [|x l IH]; simpl.
  - split; [constructor | done].
  - rewrite andb_true_iff, IH, Forall_cons. done.
Qed.

Lemma uniform_columnCount (section : list Row) :
  State.isRectangular section = true ->
  Forall (fun row => length (cells row) = State.columnCount section) section.
Proof.
  unfold State.isRectangular. rewrite forallb_Forall. intros Hall.
  eapply Forall_impl; [exact Hall|]. intros row Hrow.
  by apply bool_decide_eq_true in Hrow.
Qed.

(** A section is rectangular exactly when its rows share one cell
    count. *)
Lemma isRectangular_uniform (section : list Row) :
  State.isRectangular section = true <->
  exists n, Forall (fun row => length (cells row) = n) section.
Proof.
  split.
  - intros Hrect. exists (State.columnCount section).
    by apply uniform_columnCount.
  - intros [n Hall]. unfold State.isRectangular. apply forallb_Forall.
    destruct section as [|row rows]; [constructor|].
    assert (length (cells row) = n) as Hn by (by inversion Hall).
    eapply Forall_impl; [exact Hall|]. intros row' Hrow'. simpl.
    apply bool_decide_eq_true. congruence.
Qed.

Lemma isRectangular_pairwise (section : list Row) :
  State.isRectangular section = true <->
  forall r1 r2, r1 ∈ section -> r2 ∈ section ->
                length (cells r1) = length (cells r2).
Proof.
  rewrite isRectangular_uniform. split.
  - intros [n Hall] r1 r2 H1 H2. rewrite Forall_forall in Hall.
    rewrite (Hall r1 H1), (Hall r2 H2). done.
  - intros Hpair. destruct section as [|row rows]; [by exists 0; constructor|].
    exists (length (cells row)). apply Forall_forall. intros r Hr.
    apply Hpair; [done | constructor].
Qed.

Lemma length_spliceIn {A} (index : nat) (item : A) (items : list A) :
  length (State.spliceIn index item items) = S (length items).
Proof.
  unfold State.spliceIn. rewrite length_app. simpl.
  rewrite length_take, length_drop. lia.
Qed.

Lemma Forall_spliceIn {A} (P : A -> Prop) index item items :
  P item -> Forall P items -> Forall P (State.spliceIn index item items).
Proof.
  intros Hitem Hitems. unfold State.spliceIn.
  apply Forall_app. split; [by apply Forall_take|].
  constructor; [done | by apply Forall_drop].
Qed.

Lemma length_insertedRow (name : SectionName) (firstRow : option Row)
    (cellCount : nat) :
  length (cells (State.insertedRow name firstRow cellCount)) = cellCount.
Proof. simpl. by rewrite length_fmap, length_seq. Qed.

Lemma merge_wholePatch (state : Attributes) :
  mergeAttributes state (State.wholePatch state) = state.
Proof. by destruct state. Qed.

(** Splicing one cell into every row keeps the section rectangular. *)
Lemma insertColumn_rectangular (name : SectionName) (index : nat)
    (section : list Row) :
  State.isRectangular section = true ->
  State.isRectangular (State.insertColumnInto name index section) = true.
Proof.
  rewrite !isRectangular_uniform. intros [n Hall]. exists (S n).
  unfold State.insertColumnInto. apply Forall_fmap.
  eapply Forall_impl; [exact Hall|]. intros row Hrow. simpl.
  by rewrite length_spliceIn, Hrow.
Qed.


Lemma allRectangular_merge_section (state : Attributes) (name : SectionName)
    (rows : list Row) :
  State.allRectangular state = true ->
  State.isRectangular rows = true ->
  State.allRectangular (mergeAttributes state (sectionPatch name rows)) = true.
Proof.
  unfold State.allRectangular. rewrite !andb_true_iff.
  intros [[Hh Hb] Hf] Hrows. destruct name; simpl; auto.
Qed.

(** A row patterned on the first row of the table fits a section whose
    rows are as wide as that first row. *)
Lemma insertRow_allRectangular (state : Attributes) (name : SectionName)
    (index : nat) :
  State.allRectangular state = true ->
  Forall (fun row => length (cells row) = State.firstRowCellCount state)
    (getSection state name) ->
  State.allRectangular (mergeAttributes state (State.insertRow state name index))
  = true.
Proof.
  intros Hrect Hwide. unfold State.insertRow. case_bool_decide as Hcount.
  - by rewrite merge_wholePatch.
  - apply allRectangular_merge_section; [done|].
    apply isRectangular_uniform. exists (State.firstRowCellCount state).
    apply Forall_spliceIn; [apply length_insertedRow | done].
Qed.

Lemma insertColumn_allRectangular (state : Attributes) (index : nat) :
  State.allRectangular state = true ->
  State.allRectangular (mergeAttributes state (State.insertColumn state index))
  = true.
Proof.
  unfold State.allRectangular. rewrite !andb_true_iff.
  intros [[Hh Hb] Hf]. simpl.
  repeat split; by apply insertColumn_rectangular.
Qed.

(** C1, as stated, fails: with a head of one cell above body rows of two
    cells every section is rectangular, and the row inserted into the
    body, patterned on the head row, has one cell. *)
Lemma insertRow_breaks_rectangularity :
  let st := mkEditState State.mixedWidthTable (NumberValue 2) (NumberValue 2)
              (Some (mkCellSelection (Some Body) 0 0)) [] in
  State.allRectangular (attributes st) = true
  /\ State.allRectangular
       (mergeAttributes (attributes st)
          (State.insertRow (attributes st) Body 1)) = false
  /\ State.allRectangular (attributes (finalState (onInsertRow 1 st))) = false
  /\ (length ∘ cells) <$> body (attributes (finalState (onInsertRow 1 st)))
     = [2; 1].
Proof. repeat split. Qed.

(** C1, amended. Starting from attributes in which every section is a
    rectangular grid, the attributes submitted by [insertColumn], called
    directly or through [onInsertColumn], are again rectangular in every
    section; those submitted by [insertRow], called directly or through
    [onInsertRow], are so when the rows of the section the row goes into
    have as many cells as the first row of the table, on which the new
    row is patterned. *)
Theorem insertion_preserves_rectangularity (st : EditState) (delta : nat) :
  State.allRectangular (attributes st) = true ->
  (forall name index,
     Forall (fun row =>
               length (cells row) = State.firstRowCellCount (attributes st))
       (getSection (attributes st) name) ->
     State.allRectangular
       (mergeAttributes (attributes st)
          (State.insertRow (attributes st) name index)) = true)
  /\ (forall index,
        State.allRectangular
          (mergeAttributes (attributes st)
             (State.insertColumn (attributes st) index)) = true)
  /\ ((forall selected name,
         selectedCell st = Some selected ->
         sectionName selected = Some name ->
         Forall (fun row =>
                   length (cells row) = State.firstRowCellCount (attributes st))
           (getSection (attributes st) name)) ->
      State.allRectangular (attributes (finalState (onInsertRow delta st))) = true)
  /\ State.allRectangular (attributes (finalState (onInsertColumn delta st))) = true.
Proof.
  intros Hrect. split; [|split; [|split]].
  - intros name index Hwide. by apply insertRow_allRectangular.
  - intros index. by apply insertColumn_allRectangular.
  - intros Hwide. run_handler.
    destruct (selectedCell st) as [[[name|] row col]|] eqn:Hsel; simpl; try done.
    apply insertRow_allRectangular; [done|]. by eapply Hwide.
  - run_handler. destruct (selectedCell st) as [[name row col]|]; simpl; try done.
    by apply insertColumn_allRectangular.
Qed.

(** The first row of the table is a row of one of its sections. *)
Lemma getFirstRow_elem (state : Attributes) (row : Row) :
  State.getFirstRow state = Some row ->
  row ∈ (head state ++ body state ++ foot state)%list.
Proof.
  unfold State.getFirstRow. rewrite !elem_of_app.
  destruct (State.isEmptyTableSection (head state)); simpl;
    [|intros Hrow%list_elem_of_lookup_2; tauto].
  destruct (State.isEmptyTableSection (body state)); simpl;
    [|intros Hrow%list_elem_of_lookup_2; tauto].
  destruct (State.isEmptyTableSection (foot state)); simpl;
    [done | intros Hrow%list_elem_of_lookup_2; tauto].
Qed.

(** A table without a first row has no cell at all. *)
Lemma getFirstRow_None (state : Attributes) :
  State.getFirstRow state = None ->
  Forall (fun row => length (cells row) = 0)
    (head state ++ body state ++ foot state)%list.
Proof.
  assert (forall section,
            State.isEmptyTableSection section = true ->
            Forall (fun row => length (cells row) = 0) section) as Hnone.
  { intros section. unfold State.isEmptyTableSection.
    rewrite orb_true_iff, bool_decide_eq_true, forallb_Forall.
    intros [Hlen | Hall].
    - apply length_zero_iff_nil in Hlen as ->. constructor.
    - eapply Forall_impl; [exact Hall|]. intros row Hrow.
      by apply bool_decide_eq_true in Hrow. }
  assert (forall section : list Row,
            State.isEmptyTableSection section = false -> section !! 0 = None ->
            False) as Hsome.
  { by intros [|row section]. }
  unfold State.getFirstRow. rewrite !Forall_app.
  destruct (State.isEmptyTableSection (head state)) eqn:Hh; simpl;
    [|intros Hrow; by destruct (Hsome _ Hh Hrow)].
  destruct (State.isEmptyTableSection (body state)) eqn:Hb; simpl;
    [|intros Hrow; by destruct (Hsome _ Hb Hrow)].
  destruct (State.isEmptyTableSection (foot state)) eqn:Hf; simpl;
    [|intros Hrow; by destruct (Hsome _ Hf Hrow)].
  auto.
Qed.

(** When the rows of the whole table share one cell count, every section
    is as wide as the first row: rows can be inserted anywhere. *)
Lemma uniform_table_fits_first_row (state : Attributes) (name : SectionName) :
  State.isRectangular (head state ++ body state ++ foot state)%list = true ->
  Forall (fun row => length (cells row) = State.firstRowCellCount state)
    (getSection state name).
Proof.
  intros [n Hall]%isRectangular_uniform.
  assert (Forall (fun row => length (cells row) = State.firstRowCellCount state)
            (head state ++ body state ++ foot state)%list) as Hfit.
  { unfold State.firstRowCellCount.
    destruct (State.getFirstRow state) as [row|] eqn:Hfirst; simpl.
    - apply getFirstRow_elem in Hfirst. rewrite Forall_forall in Hall.
      rewrite (Hall row Hfirst). apply Forall_forall, Hall.
    - by apply getFirstRow_None. }
  rewrite !Forall_app in Hfit. destruct Hfit as (? & ? & ?). by destruct name.
Qed.

(** With a cell selected in a section of a table that has a first row
    with cells, [onInsertRow] does add a row to that section; and
    [onInsertColumn] adds a cell to each row of the table. *)
Lemma onInsertRow_adds_row (st : EditState) (name : SectionName)
    (row col delta : nat) :
  selectedCell st = Some (mkCellSelection (Some name) row col) ->
  State.firstRowCellCount (attributes st) <> 0 ->
  exists st',
    onInsertRow delta st = Normal tt st'
    /\ length (getSection (attributes st') name)
       = S (length (getSection (attributes st) name)).
Proof.
  intros Hsel Hcount. run_handler. rewrite Hsel. simpl. eexists. split; [done|].
  unfold State.insertRow. rewrite bool_decide_eq_false_2 by done.
  destruct name; simpl; apply length_spliceIn.
Qed.

Lemma onInsertColumn_adds_cell (st : EditState) (selected : CellSelection)
    (delta : nat) (name : SectionName) :
  selectedCell st = Some selected ->
  exists st',
    onInsertColumn delta st = Normal tt st'
    /\ (length ∘ cells) <$> getSection (attributes st') name
       = (S ∘ length ∘ cells) <$> getSection (attributes st) name.
Proof.
  intros Hsel. run_handler. rewrite Hsel. simpl. eexists. split; [done|].
  destruct name; simpl; unfold State.insertColumnInto;
    rewrite <- list_fmap_compose; apply list_fmap_ext;
    intros i r _; simpl; apply length_spliceIn.
Qed.


(** *** Empty sections and the placeholder *)

Lemma isEmptyTableSection_spec (section : list Row) :
  State.isEmptyTableSection section = true <->
  section = [] \/ Forall (fun row => cells row = []) section.
Proof.
  unfold State.isEmptyTableSection.
  rewrite orb_true_iff, bool_decide_eq_true, forallb_Forall, length_zero_iff_nil.
  apply or_iff_compat_l, Forall_iff. intros row. unfold State.isEmptyRow.
  by rewrite bool_decide_eq_true, length_zero_iff_nil.
Qed.

(** C6. A section is empty exactly when it has no rows or none of its
    rows has a cell, and the component renders the placeholder form
    exactly when head, body and foot are all three empty. *)
Theorem placeholder_iff_all_empty (st : EditState) :
  (forall section,
     State.isEmptyTableSection section = true <->
     section = [] \/ Forall (fun row => cells row = []) section)
  /\ (render st = PlaceholderView (initialColumnCount st) (initialRowCount st) <->
      State.isEmptyTableSection (head (attributes st)) = true
      /\ State.isEmptyTableSection (body (attributes st)) = true
      /\ State.isEmptyTableSection (foot (attributes st)) = true)
  /\ ((exists controls sections captionValue,
         render st = TableView controls sections captionValue) <->
      ~ (State.isEmptyTableSection (head (attributes st)) = true
         /\ State.isEmptyTableSection (body (attributes st)) = true
         /\ State.isEmptyTableSection (foot (attributes st)) = true)).
Proof.
  split; [exact isEmptyTableSection_spec|].
  assert (isEmpty (attributes st) = true <->
          State.isEmptyTableSection (head (attributes st)) = true
          /\ State.isEmptyTableSection (body (attributes st)) = true
          /\ State.isEmptyTableSection (foot (attributes st)) = true) as Hiff.
  { unfold isEmpty. simpl. rewrite !andb_true_iff. tauto. }
  unfold render. destruct (isEmpty (attributes st)) eqn:Hempty.
  - split.
    + split; [intros _; by apply Hiff | done].
    + split; [by intros (? & ? & ? & ?) |].
      intros Hne. exfalso. apply Hne. by apply Hiff.
  - split.
    + split; [done |]. intros Hall. apply Hiff in Hall. done.
    + split; [| intros _; by do 3 eexists].
      intros _ Hall. apply Hiff in Hall. done.
Qed.

(** *** Toggling a section *)

Lemma added_section_not_empty (name : SectionName) (n : nat) :
  State.isEmptyTableSection [State.blankRow name (Nat.max 1 n)] = false.
Proof. destruct (Nat.max 1 n) eqn:Hmax; [lia | reflexivity]. Qed.

Lemma onToggle_twice (st : EditState) :
  attributes (finalState (onToggleHeaderSection
                            (finalState (onToggleHeaderSection st))))
  = State.toggleTwice (attributes st) Head
  /\ attributes (finalState (onToggleFooterSection
                               (finalState (onToggleFooterSection st))))
     = State.toggleTwice (attributes st) Foot.
Proof. split; reflexivity. Qed.

(** C3, as stated, fails: toggling the head of a table whose header row
    holds text twice clears that text. *)
Lemma toggle_twice_loses_content :
  State.toggleTwice State.exampleTable Head <> State.exampleTable
  /\ attributes (finalState (onToggleHeaderSection
                               (finalState (onToggleHeaderSection
                                              (mount State.exampleTable)))))
     <> State.exampleTable.
Proof. split; intros Heq; discriminate Heq. Qed.

(** C3, amended. When the named section has no rows, applying
    [toggleSection] twice to it, as [onToggleHeaderSection] and
    [onToggleFooterSection] do for head and foot, gives back the original
    attributes. *)
Theorem toggle_twice_absent_section (st : EditState) (name : SectionName) :
  getSection (attributes st) name = [] ->
  State.toggleTwice (attributes st) name = attributes st
  /\ (name = Head ->
      attributes (finalState (onToggleHeaderSection
                                (finalState (onToggleHeaderSection st))))
      = attributes st)
  /\ (name = Foot ->
      attributes (finalState (onToggleFooterSection
                                (finalState (onToggleFooterSection st))))
      = attributes st).
Proof.
  intros Hnone.
  assert (State.toggleTwice (attributes st) name = attributes st) as Htwice.
  { destruct (attributes st) as [fixed cap h b f].
    unfold State.toggleTwice, State.toggleOnce, State.toggleSection.
    destruct name; simpl in Hnone; subst; cbn [getSection head body foot];
      change (State.isEmptyTableSection []) with true; cbv iota;
      cbn [mergeAttributes sectionPatch head body foot hasFixedLayout caption
           default from_option id newHead newBody newFoot newHasFixedLayout
           newCaption];
      rewrite added_section_not_empty; reflexivity. }
  split; [done|]. destruct (onToggle_twice st) as [Hhead Hfoot].
  split; intros ->; congruence.
Qed.


(** *** Column alignment *)

Lemma lookup_updateSection (name : SectionName) (selection : Selection)
    (updateCell : Cell -> Cell) (section : list Row) (row col : nat) :
  (r ← State.updateSection name selection updateCell section !! row; cells r !! col)
  = (fun c => if State.isCellSelected name row col selection
              then updateCell c else c)
    <$> (r ← section !! row; cells r !! col).
Proof.
  unfold State.updateSection. rewrite list_lookup_imap.
  destruct (section !! row) as [r|]; simpl; [|done].
  by rewrite list_lookup_imap.
Qed.

Lemma getCell_updateSelectedCell (state : Attributes) (selection : Selection)
    (updateCell : Cell -> Cell) (name : SectionName) (row col : nat) :
  State.getCell
    (mergeAttributes state (State.updateSelectedCell state selection updateCell))
    name row col
  = (fun c => if State.isCellSelected name row col selection
              then updateCell c else c)
    <$> State.getCell state name row col.
Proof. unfold State.getCell. destruct name; simpl; apply lookup_updateSection. Qed.

(** C4. With a cell selected in column [c], [onChangeColumnAlignment]
    turns the selection into a column selection (type ['column']) and
    submits the result of [updateSelectedCell] for it: every cell at
    column [c], in every row of every section, gets the new alignment and
    keeps its content, tag and scope; the cells of the other columns, the
    number of cells, the layout flag and the caption are as before. *)
Theorem column_alignment_uniform (st : EditState) (selected : CellSelection)
    (newAlign : option string) :
  selectedCell st = Some selected ->
  let columnSelection := SelectColumn (columnIndex selected) in
  exists st',
    onChangeColumnAlignment newAlign st = Normal tt st'
    /\ type columnSelection = column
    /\ hostCalls st' =
         (hostCalls st ++
          [SetAttributes (State.updateSelectedCell (attributes st) columnSelection
                            (withAlign newAlign))])%list
    /\ (forall name row c,
          State.getCell (attributes st) name row (columnIndex selected) = Some c ->
          State.getCell (attributes st') name row (columnIndex selected)
          = Some (mkCell (content c) (tag c) (scope c) newAlign))
    /\ (forall name row col,
          col <> columnIndex selected ->
          State.getCell (attributes st') name row col
          = State.getCell (attributes st) name row col)
    /\ (forall name row col,
          is_Some (State.getCell (attributes st') name row col) <->
          is_Some (State.getCell (attributes st) name row col))
    /\ hasFixedLayout (attributes st') = hasFixedLayout (attributes st)
    /\ caption (attributes st') = caption (attributes st).
Proof.
  intros Hsel. simpl. eexists. split.
  { run_handler. rewrite Hsel. simpl. reflexivity. }
  cbn [attributes hostCalls]. split; [done|]. split; [done|].
  split; [|split; [|split; [|done]]].
  - intros name row c Hcell. rewrite getCell_updateSelectedCell, Hcell. simpl.
    by rewrite bool_decide_eq_true_2.
  - intros name row col Hne. rewrite getCell_updateSelectedCell. simpl.
    rewrite bool_decide_eq_false_2 by done.
    by destruct (State.getCell _ _ _ _).
  - intros name row col. rewrite getCell_updateSelectedCell.
    apply fmap_is_Some.
Qed.

(** *** Deleting the last row or column *)

Lemma getSection_merge_section (state : Attributes) (name : SectionName)
    (rows : list Row) :
  getSection (mergeAttributes state (sectionPatch name rows)) name = rows.
Proof. by destruct name. Qed.

Lemma deleteColumnFrom_single (section : list Row) :
  Forall (fun row => length (cells row) = 1) section ->
  Forall (fun row => cells row = []) (State.deleteColumnFrom 0 section).
Proof.
  intros Hall. unfold State.deleteColumnFrom. apply Forall_fmap.
  eapply Forall_impl; [exact Hall|]. intros [[|c [|c' cs]]] Hlen; simpl in *;
    done.
Qed.

(** C7. When the selected cell sits in the only row of its section,
    [onDeleteRow] leaves that section without rows, hence empty; when the
    rows of a section have a single cell each and the selected cell is in
    that column, [onDeleteColumn] leaves those rows without cells, hence
    the section empty. *)
Theorem deleting_last_empties_section (st : EditState) (name : SectionName) :
  (forall only col,
     selectedCell st = Some (mkCellSelection (Some name) 0 col) ->
     getSection (attributes st) name = [only] ->
     exists st',
       onDeleteRow st = Normal tt st'
       /\ getSection (attributes st') name = []
       /\ State.isEmptyTableSection (getSection (attributes st') name) = true)
  /\ (forall selected,
        selectedCell st = Some selected ->
        columnIndex selected = 0 ->
        Forall (fun row => length (cells row) = 1) (getSection (attributes st) name) ->
        exists st',
          onDeleteColumn st = Normal tt st'
          /\ State.isEmptyTableSection (getSection (attributes st') name) = true).
Proof.
  split.
  - intros only col Hsel Hrows. eexists. split.
    { run_handler. rewrite Hsel. simpl. reflexivity. }
    cbn [attributes]. unfold State.deleteRow.
    rewrite getSection_merge_section, Hrows. by split.
  - intros selected Hsel Hcol Hall. eexists. split.
    { run_handler. rewrite Hsel. simpl. reflexivity. }
    cbn [attributes]. rewrite Hcol.
    apply isEmptyTableSection_spec. right.
    destruct name; simpl in *; by apply deleteColumnFrom_single.
Qed.

End ModelledHelpers.

(** ** The link picker screen *)

Section LinkPicker.
Import LinkPickerScreen.

Lemma interactionsDone_last (h : Host) (b : bool) :
  isChildrenScrollable
    (interactionsDone (runAfterInteractions [setIsChildrenScrollable b] h)) = b.
Proof.
  unfold interactionsDone, runAfterInteractions. simpl.
  by rewrite foldl_app.
Qed.

(** C8. [onLinkPicked] navigates to the screen named by the
    [returnScreenName] prop with [inputValue] set to the url and [text]
    set to the title of the picked link; [onCancel] goes back; each then
    leaves with the interaction manager a task that sets
    [isChildrenScrollable] to false, which is its value once the
    interactions are over. *)
Theorem link_picker_callbacks (props : Props) (link : Link) (h : Host) :
  onLinkPicked props link h =
    mkHost
      (navigation h ++
       [navigate (returnScreenName props)
          {| inputValue := url link; text := title link |}])
      (afterInteractions h ++ [[setIsChildrenScrollable false]])
      (isChildrenScrollable h)
  /\ onCancel h =
       mkHost (navigation h ++ [goBack])
         (afterInteractions h ++ [[setIsChildrenScrollable false]])
         (isChildrenScrollable h)
  /\ isChildrenScrollable (interactionsDone (onLinkPicked props link h)) = false
  /\ isChildrenScrollable (interactionsDone (onCancel h)) = false.
Proof.
  split; [reflexivity|]. split; [reflexivity|].
  split; apply interactionsDone_last.
Qed.

End LinkPicker.

(** ** The header of the site editor *)

Section HeaderToolbar.
Import SiteHeader.

(** C10. The block toolbar is displayed exactly when the viewport is not
    large, or the preview device is not ['Desktop'], or the fixed toolbar
    is active; and the toolbar of the header holds the block toolbar
    exactly when it is displayed. *)
Theorem block_toolbar_displayed_iff (isLargeViewport : bool) (s : Selected) :
  (displayBlockToolbar isLargeViewport s = true <->
   isLargeViewport = false \/ deviceType s <> "Desktop" \/ hasFixedToolbar s = true)
  /\ (BlockToolbar ∈ Header isLargeViewport s <->
      displayBlockToolbar isLargeViewport s = true).
Proof.
  split.
  - unfold displayBlockToolbar.
    rewrite !orb_true_iff, negb_true_iff, bool_decide_eq_true. tauto.
  - unfold Header, renderIf.
    destruct (displayBlockToolbar isLargeViewport s); simpl.
    + split; [done|]. intros _. rewrite !elem_of_cons. tauto.
    + split; [|done]. rewrite !elem_of_cons, elem_of_nil.
      intuition discriminate.
Qed.

End HeaderToolbar.

(** ** The theorems at work on sample tables *)

Section Samples.
Import TableBlock TableEdit.

Example parseInt_samples :
  parseInt (NumberValue 2) = Int 2
  /\ parseInt (StringValue "  12px") = Int 12
  /\ parseInt (StringValue "-3") = Int (-3)
  /\ parseInt (StringValue "0") = Int 0
  /\ parseInt (StringValue "") = NaN
  /\ parseInt (StringValue "x1") = NaN.
Proof. repeat split. Qed.

Example render_samples :
  render (mount (mkAttributes false "" [] [mkRow []] []))
    = PlaceholderView (NumberValue 2) (NumberValue 2)
  /\ render (mount State.exampleTable)
     = TableView (mkControls true false true false)
         [Some (mkSectionView "thead"
                  [[mkCellView th "wp-block-table__cell-content" None "Name"
                      "Header label" (mkCellSelection (Some Head) 0 0);
                    mkCellView th "has-text-align-right wp-block-table__cell-content"
                      None "Born" "Header label" (mkCellSelection (Some Head) 0 1)]]);
          Some (mkSectionView "tbody"
                  [[mkCellView td "wp-block-table__cell-content" None "Ada" ""
                      (mkCellSelection (Some Body) 0 0);
                    mkCellView td "has-text-align-right wp-block-table__cell-content"
                      None "1815" "" (mkCellSelection (Some Body) 0 1)]]);
          None]
         "People".
Proof. split; reflexivity. Qed.

Example insertRow_sample :
  body (mergeAttributes State.exampleTable
          (State.insertRow State.exampleTable Body 1))
  = [mkRow [mkCell "Ada" td None None; mkCell "1815" td None (Some "right")];
     mkRow [mkCell "" td None None; mkCell "" td None (Some "right")]]
  /\ mergeAttributes (mkAttributes false "" [] [] [])
       (State.insertRow (mkAttributes false "" [] [] []) Body 0)
     = mkAttributes false "" [] [] [].
Proof. split; reflexivity. Qed.

Lemma no_selection_no_op_sample :
  let st := mount State.exampleTable in
  selectedCell st = None
  /\ onChange "Ada" st = Normal tt st
  /\ onChangeColumnAlignment (Some "center") st = Normal tt st
  /\ onInsertRow 1 st = Normal tt st
  /\ onDeleteRow st = Normal tt st
  /\ onInsertColumn 1 st = Normal tt st
  /\ onDeleteColumn st = Normal tt st.
Proof.
  split; [reflexivity|].
  apply (no_selection_no_op (mount State.exampleTable) "Ada" (Some "center") 1).
  reflexivity.
Defined.

Lemma onCreateTable_counts_sample :
  parseInt (StringValue "abc") = NaN
  /\ orElse (parseInt (StringValue "abc")) 2 = 2%Z
  /\ parseInt (StringValue "7 rows") = Int 7
  /\ orElse (parseInt (StringValue "7 rows")) 2 = 7%Z.
Proof.
  pose proof (onCreateTable_counts (mount State.exampleTable))
    as (_ & Hfalsy & Htruthy & _).
  split; [reflexivity|]. split; [apply Hfalsy; left; reflexivity|].
  split; [reflexivity|]. apply Htruthy; [reflexivity | discriminate].
Defined.

Lemma insertion_moves_selection_sample :
  let selected := mkCellSelection (Some Body) 0 1 in
  let st := mkEditState State.exampleTable (NumberValue 2) (NumberValue 2)
              (Some selected) [] in
  selectedCell (finalState (onInsertRow 1 st)) = Some (mkCellSelection (Some Body) 1 0)
  /\ selectedCell (finalState (onInsertColumn 1 st)) = Some (mkCellSelection None 0 2).
Proof.
  intros selected st. split.
  - destruct (insertion_moves_selection st selected 1
                (State.insertRow State.exampleTable Body 1) eq_refl)
      as [Hrow _].
    destruct (Hrow eq_refl) as [-> _]. reflexivity.
  - destruct (insertion_moves_selection st selected 1
                (State.insertColumn State.exampleTable 2) eq_refl)
      as [_ Hcol].
    destruct (Hcol eq_refl) as [-> _]. reflexivity.
Defined.

Lemma insertion_preserves_rectangularity_sample :
  let st := mkEditState State.exampleTable (NumberValue 2) (NumberValue 2)
              (Some (mkCellSelection (Some Body) 0 1)) [] in
  State.allRectangular (attributes st) = true
  /\ Forall (fun row =>
               length (cells row) = State.firstRowCellCount (attributes st))
       (getSection (attributes st) Body)
  /\ State.allRectangular
       (mergeAttributes (attributes st)
          (State.insertRow (attributes st) Body 1)) = true
  /\ State.allRectangular (attributes (finalState (onInsertRow 1 st))) = true
  /\ State.allRectangular (attributes (finalState (onInsertColumn 1 st))) = true.
Proof.
  intros st.
  assert (Forall (fun row =>
                    length (cells row) = State.firstRowCellCount (attributes st))
            (getSection (attributes st) Body)) as Hwide.
  { repeat constructor. }
  destruct (insertion_preserves_rectangularity st 1 eq_refl)
    as (Hhelper & _ & Hrow & Hcolumn).
  split; [reflexivity|]. split; [exact Hwide|].
  split; [exact (Hhelper Body 1 Hwide)|]. split; [|exact Hcolumn].
  apply Hrow. intros selected name [= <-] [= <-]. exact Hwide.
Defined.

Lemma toggle_twice_absent_section_sample :
  getSection State.exampleTable Foot = []
  /\ State.toggleTwice State.exampleTable Foot = State.exampleTable.
Proof.
  split; [reflexivity|].
  apply (proj1 (toggle_twice_absent_section (mount State.exampleTable) Foot
                  eq_refl)).
Defined.

Lemma column_alignment_uniform_sample :
  let st := mkEditState State.exampleTable (NumberValue 2) (NumberValue 2)
              (Some (mkCellSelection (Some Body) 0 0)) [] in
  exists st',
    onChangeColumnAlignment (Some "center") st = Normal tt st'
    /\ State.getCell (attributes st') Head 0 0
       = Some (mkCell "Name" th None (Some "center"))
    /\ State.getCell (attributes st') Body 0 0
       = Some (mkCell "Ada" td None (Some "center"))
    /\ State.getCell (attributes st') Body 0 1
       = Some (mkCell "1815" td None (Some "right")).
Proof.
  destruct (column_alignment_uniform
              (mkEditState State.exampleTable (NumberValue 2) (NumberValue 2)
                 (Some (mkCellSelection (Some Body) 0 0)) [])
              (mkCellSelection (Some Body) 0 0) (Some "center") eq_refl)
    as (st' & Hrun & _ & _ & Hcolumn & Hother & _).
  exists st'. split; [exact Hrun|]. split; [|split].
  - apply (Hcolumn Head 0 (mkCell "Name" th None None)). reflexivity.
  - apply (Hcolumn Body 0 (mkCell "Ada" td None None)). reflexivity.
  - rewrite (Hother Body 0 1); [reflexivity | discriminate].
Defined.

Lemma deleting_last_empties_section_sample :
  (let st := mkEditState State.exampleTable (NumberValue 2) (NumberValue 2)
               (Some (mkCellSelection (Some Head) 0 1)) [] in
   exists st',
     onDeleteRow st = Normal tt st'
     /\ getSection (attributes st') Head = []
     /\ State.isEmptyTableSection (getSection (attributes st') Head) = true)
  /\ (let st := mkEditState State.singleColumnTable (NumberValue 2) (NumberValue 2)
                  (Some (mkCellSelection (Some Body) 1 0)) [] in
      exists st',
        onDeleteColumn st = Normal tt st'
        /\ State.isEmptyTableSection (getSection (attributes st') Body) = true).
Proof.
  split.
  - apply (proj1 (deleting_last_empties_section
                    (mkEditState State.exampleTable (NumberValue 2) (NumberValue 2)
                       (Some (mkCellSelection (Some Head) 0 1)) []) Head)
             (mkRow [mkCell "Name" th None None; mkCell "Born" th None (Some "right")])
             1); reflexivity.
  - apply (proj2 (deleting_last_empties_section
                    (mkEditState State.singleColumnTable (NumberValue 2)
                       (NumberValue 2) (Some (mkCellSelection (Some Body) 1 0)) [])
                    Body)
             (mkCellSelection (Some Body) 1 0)); [reflexivity | reflexivity |].
    repeat constructor.
Defined.

End Samples.

(** ** Sequences of actions, whatever the helpers of [./state] do *)

Section ActionSequences.
Import TableBlock TableEdit.
Context {helpers : StateHelpers}.

Lemma unselected_skips (st : EditState) (newContent : string)
    (newAlign : option string) (delta : nat) :
  selectedCell st = None ->
  onChange newContent st = Normal tt st
  /\ onChangeColumnAlignment newAlign st = Normal tt st
  /\ onInsertRow delta st = Normal tt st
  /\ onDeleteRow st = Normal tt st
  /\ onInsertColumn delta st = Normal tt st
  /\ onDeleteColumn st = Normal tt st.
Proof. intros Hnone. run_handler. by rewrite Hnone. Qed.

Lemma onDeleteRow_selection (st : EditState) :
  selectedCell (finalState (onDeleteRow st)) = None.
Proof.
  run_handler. destruct (selectedCell st) as [selected|] eqn:Hsel; simpl; [|done].
  by destruct (deleteRow _ _ _).
Qed.

Lemma onDeleteColumn_selection (st : EditState) :
  selectedCell (finalState (onDeleteColumn st)) = None.
Proof.
  run_handler. destruct (selectedCell st) as [selected|] eqn:Hsel; simpl; [|done].
  by destruct (deleteColumn _ _ _).
Qed.

(** X1. [onDeleteRow] and [onDeleteColumn] clear the cell selection
    before they call their helper: whatever the helper does, returning or
    throwing, no cell is selected afterwards, and a second deletion (or
    any other cell action) right after does nothing. *)
Theorem deletion_clears_selection (st : EditState) (newContent : string)
    (newAlign : option string) (delta : nat) :
  (let st1 := finalState (onDeleteRow st) in
   selectedCell st1 = None
   /\ onDeleteRow st1 = Normal tt st1 /\ onDeleteColumn st1 = Normal tt st1
   /\ onInsertRow delta st1 = Normal tt st1
   /\ onInsertColumn delta st1 = Normal tt st1
   /\ onChange newContent st1 = Normal tt st1
   /\ onChangeColumnAlignment newAlign st1 = Normal tt st1)
  /\ (let st1 := finalState (onDeleteColumn st) in
      selectedCell st1 = None
      /\ onDeleteRow st1 = Normal tt st1 /\ onDeleteColumn st1 = Normal tt st1
      /\ onInsertRow delta st1 = Normal tt st1
      /\ onInsertColumn delta st1 = Normal tt st1
      /\ onChange newContent st1 = Normal tt st1
      /\ onChangeColumnAlignment newAlign st1 = Normal tt st1).
Proof.
  split; simpl.
  - pose proof (onDeleteRow_selection st) as Hnone.
    destruct (unselected_skips _ newContent newAlign delta Hnone)
      as (? & ? & ? & ? & ? & ?). done.
  - pose proof (onDeleteColumn_selection st) as Hnone.
    destruct (unselected_skips _ newContent newAlign delta Hnone)
      as (? & ? & ? & ? & ? & ?). done.
Qed.

(** X2. The selection left by [onInsertColumn] names no section.  A row
    action that follows therefore hands its helper an absent section
    name: [onInsertRow( delta' )] calls [insertRow] with no section name
    and row index [delta'], and [onDeleteRow] calls [deleteRow] with no
    section name and row index 0. *)
Theorem column_insertion_forgets_section (st : EditState)
    (selected : CellSelection) (delta delta' : nat) (patch : AttributesPatch) :
  selectedCell st = Some selected ->
  insertColumn (attributes st) (columnIndex selected + delta) = Some patch ->
  let attrs1 := mergeAttributes (attributes st) patch in
  let st1 := finalState (onInsertColumn delta st) in
  attributes st1 = attrs1
  /\ onInsertRow delta' st1 =
       match insertRow attrs1 None delta' with
       | Some patch' =>
           Normal tt
             (mkEditState (mergeAttributes attrs1 patch')
                (initialRowCount st) (initialColumnCount st)
                (Some (mkCellSelection None delta' 0))
                (hostCalls st ++ [SetAttributes patch; SetAttributes patch']))
       | None => Throw st1
       end
  /\ onDeleteRow st1 =
       match deleteRow attrs1 None 0 with
       | Some patch' =>
           Normal tt
             (mkEditState (mergeAttributes attrs1 patch')
                (initialRowCount st) (initialColumnCount st) None
                (hostCalls st ++ [SetAttributes patch; SetAttributes patch']))
       | None =>
           Throw
             (mkEditState attrs1 (initialRowCount st) (initialColumnCount st)
                None (hostCalls st ++ [SetAttributes patch]))
       end.
Proof.
  intros Hsel Hpatch. simpl.
  assert (onInsertColumn delta st =
          Normal tt
            (mkEditState (mergeAttributes (attributes st) patch)
               (initialRowCount st) (initialColumnCount st)
               (Some (mkCellSelection None 0 (columnIndex selected + delta)))
               (hostCalls st ++ [SetAttributes patch]))) as ->.
  { run_handler. rewrite Hsel. simpl. by rewrite Hpatch. }
  simpl. split; [done|]. split.
  - run_handler. destruct (insertRow _ _ _); simpl; [|done].
    by rewrite <- app_assoc.
  - run_handler. destruct (deleteRow _ _ _); simpl; [|done].
    by rewrite <- app_assoc.
Qed.

(** X3. The selection follows the inserted row: after [onInsertRow( d1 )]
    went through, [onInsertRow( d2 )] calls [insertRow] on the updated
    attributes, in the same section, at row index [rowIndex + d1 + d2],
    and leaves the selection there. *)
Theorem row_insertions_accumulate (st : EditState) (selected : CellSelection)
    (d1 d2 : nat) (patch1 : AttributesPatch) :
  selectedCell st = Some selected ->
  insertRow (attributes st) (sectionName selected) (rowIndex selected + d1)
    = Some patch1 ->
  let attrs1 := mergeAttributes (attributes st) patch1 in
  onInsertRow d2 (finalState (onInsertRow d1 st)) =
    match insertRow attrs1 (sectionName selected) (rowIndex selected + d1 + d2) with
    | Some patch2 =>
        Normal tt
          (mkEditState (mergeAttributes attrs1 patch2)
             (initialRowCount st) (initialColumnCount st)
             (Some (mkCellSelection (sectionName selected)
                      (rowIndex selected + d1 + d2) 0))
             (hostCalls st ++ [SetAttributes patch1; SetAttributes patch2]))
    | None =>
        Throw
          (mkEditState attrs1 (initialRowCount st) (initialColumnCount st)
             (Some (mkCellSelection (sectionName selected)
                      (rowIndex selected + d1) 0))
             (hostCalls st ++ [SetAttributes patch1]))
    end.
Proof.
  intros Hsel Hpatch. simpl.
  assert (onInsertRow d1 st =
          Normal tt
            (mkEditState (mergeAttributes (attributes st) patch1)
               (initialRowCount st) (initialColumnCount st)
               (Some (mkCellSelection (sectionName selected)
                        (rowIndex selected + d1) 0))
               (hostCalls st ++ [SetAttributes patch1]))) as ->.
  { run_handler. rewrite Hsel. simpl. by rewrite Hpatch. }
  run_handler. destruct (insertRow _ _ (rowIndex selected + d1 + d2)); simpl;
    [|done].
  by rewrite <- app_assoc.
Qed.

(** X4. Editing the content of a cell or the alignment of a column never
    moves the selection, and when the helper throws nothing at all has
    changed: no attribute, no call to [setAttributes]. *)
Theorem editing_keeps_selection (st : EditState) (newContent : string)
    (newAlign : option string) :
  selectedCell (finalState (onChange newContent st)) = selectedCell st
  /\ selectedCell (finalState (onChangeColumnAlignment newAlign st))
     = selectedCell st
  /\ (forall st', onChange newContent st = Throw st' -> st' = st)
  /\ (forall st', onChangeColumnAlignment newAlign st = Throw st' -> st' = st).
Proof.
  run_handler. destruct (selectedCell st) as [selected|] eqn:Hsel; simpl.
  - destruct (updateSelectedCell _ (SelectCell _) _),
      (updateSelectedCell _ (SelectColumn _) _); simpl;
      repeat split; try done; intros st' Hthrow; congruence.
  - repeat split; try done; intros st' Hthrow; congruence.
Qed.

(** X5. The two counts [onCreateTable] hands to [createTable] are never
    zero, whatever the fields hold. *)
Theorem created_counts_never_zero (st : EditState) :
  exists rowCount colCount : Z,
    rowCount <> 0%Z /\ colCount <> 0%Z
    /\ onCreateTable st =
         match createTable rowCount colCount with
         | Some patch =>
             Normal tt
               (mkEditState (mergeAttributes (attributes st) patch)
                  (initialRowCount st) (initialColumnCount st) (selectedCell st)
                  (hostCalls st ++ [PreventDefault; SetAttributes patch]))
         | None =>
             Throw
               (mkEditState (attributes st) (initialRowCount st)
                  (initialColumnCount st) (selectedCell st)
                  (hostCalls st ++ [PreventDefault]))
         end.
Proof.
  assert (forall x, orElse x 2 <> 0%Z) as Hnz.
  { intros [|[| |]]; simpl; lia. }
  exists (orElse (parseInt (initialRowCount st)) 2),
    (orElse (parseInt (initialColumnCount st)) 2).
  split; [apply Hnz|]. split; [apply Hnz|].
  run_handler. destruct (createTable _ _); simpl; [|done].
  by rewrite <- app_assoc.
Qed.

(** X8. What [onCreateTable] asks for depends on the last values
    reported for the two fields only: after
    [onChangeInitialColumnCount( w )] and [onChangeInitialRowCount( v )],
    in either order, it calls [createTable] with the counts read from [v]
    and [w]. *)
Theorem entered_counts_decide_table (st : EditState) (v w : FieldValue) :
  let entered := mkEditState (attributes st) v w (selectedCell st) (hostCalls st) in
  finalState (onChangeInitialRowCount v
                (finalState (onChangeInitialColumnCount w st))) = entered
  /\ finalState (onChangeInitialColumnCount w
                   (finalState (onChangeInitialRowCount v st))) = entered
  /\ onCreateTable entered =
       match createTable (orElse (parseInt v) 2) (orElse (parseInt w) 2) with
       | Some patch =>
           Normal tt
             (mkEditState (mergeAttributes (attributes st) patch) v w
                (selectedCell st)
                (hostCalls st ++ [PreventDefault; SetAttributes patch]))
       | None =>
           Throw
             (mkEditState (attributes st) v w (selectedCell st)
                (hostCalls st ++ [PreventDefault]))
       end.
Proof.
  simpl. split; [done|]. split; [done|].
  run_handler. destruct (createTable _ _); simpl; [|done].
  by rewrite <- app_assoc.
Qed.

End ActionSequences.

(** ** What [parseInt] makes of the text of a count field *)

Section EnteredText.
Import TableBlock.

Lemma digitsValue_lower (acc : Z) (s : string) :
  (0 <= acc -> acc <= digitsValue acc s)%Z.
Proof.
  revert acc. induction s as [|a rest IH]; intros acc Hacc; simpl; [lia|].
  unfold digitValue.
  destruct ((48 <=? nat_of_ascii a)%nat && (nat_of_ascii a <=? 57)%nat); [|lia].
  etransitivity; [|apply IH]; lia.
Qed.

Lemma digit_not_white (a : ascii) :
  is_Some (digitValue a) -> isWhiteSpace a = false.
Proof.
  unfold digitValue, isWhiteSpace. intros [d Hd].
  destruct ((48 <=? nat_of_ascii a)%nat && (nat_of_ascii a <=? 57)%nat) eqn:Hrange;
    [|done].
  apply andb_true_iff in Hrange as [Hlo Hhi].
  apply Nat.leb_le in Hlo, Hhi.
  repeat (apply orb_false_iff; split); apply Nat.eqb_neq; lia.
Qed.

Lemma digit_not_sign (a : ascii) :
  is_Some (digitValue a) -> a <> "-"%char /\ a <> "+"%char.
Proof. intros [d Hd]. split; intros ->; discriminate Hd. Qed.

(** A text that starts with a digit is read as the value of its leading
    digits. *)
Lemma parseInt_digits (s : string) :
  startsWithDigit s = true ->
  parseInt (StringValue s) = Int (digitsValue 0 s).
Proof.
  intros Hdigit. destruct s as [|a rest]; [done|].
  simpl in Hdigit. apply bool_decide_eq_true in Hdigit.
  pose proof (digit_not_white a Hdigit) as Hwhite.
  destruct (digit_not_sign a Hdigit) as [Hminus Hplus].
  unfold parseInt. cbn [toString trimStart]. rewrite Hwhite.
  assert (startsWithDigit (String a rest) = true) as Hstart.
  { simpl. by apply bool_decide_eq_true. }
  destruct a as [[] [] [] [] [] [] [] []]; try done;
    rewrite Hstart; f_equal; lia.
Qed.

(** X6. A minus sign in front of a number other than zero is kept: the
    count handed on by [parseInt( text, 10 ) || 2] is then negative, the
    fallback [2] standing in for [NaN] and [0] only. *)
Theorem negative_count_kept (s : string) (z : Z) :
  startsWithDigit s = true ->
  parseInt (StringValue s) = Int z ->
  z <> 0%Z ->
  orElse (parseInt (StringValue (String "-" s))) 2 = (- z)%Z
  /\ (orElse (parseInt (StringValue (String "-" s))) 2 < 0)%Z.
Proof.
  intros Hdigit Hparse Hz. rewrite parseInt_digits in Hparse by done.
  injection Hparse as <-.
  pose proof (digitsValue_lower 0 s ltac:(lia)) as Hpos.
  assert (parseInt (StringValue (String "-" s)) = Int (- digitsValue 0 s)) as ->.
  { unfold parseInt. cbn [toString trimStart]. simpl. rewrite Hdigit.
    first [reflexivity | f_equal; lia]. }
  assert (0 < digitsValue 0 s)%Z as Hlt by lia.
  destruct (digitsValue 0 s) as [|p|p]; simpl; try lia.
Qed.

Lemma digitsValue_app (acc : Z) (digits rest : string) :
  allDigits digits = true ->
  startsWithDigit rest = false ->
  digitsValue acc (digits ++ rest) = digitsValue acc digits.
Proof.
  revert acc. induction digits as [|a digits IH]; intros acc Hall Hrest; simpl.
  - destruct rest as [|b rest]; [done|]. simpl in *.
    apply bool_decide_eq_false in Hrest.
    destruct (digitValue b) eqn:Hb; [|done]. exfalso. apply Hrest. eauto.
  - simpl in Hall. apply andb_true_iff in Hall as [_ Hall].
    destruct (digitValue a); [by apply IH | done].
Qed.

(** X7. Whatever follows the leading digits of a text is ignored: a
    run of digits followed by a text that does not start with a digit (a
    decimal point, a unit) is read as the run of digits alone. *)
Theorem text_after_digits_ignored (digits rest : string) :
  allDigits digits = true ->
  digits <> "" ->
  startsWithDigit rest = false ->
  parseInt (StringValue (digits ++ rest)) = parseInt (StringValue digits).
Proof.
  intros Hall Hne Hrest.
  assert (startsWithDigit digits = true) as Hstart.
  { destruct digits as [|a digits]; [done|]. simpl in *.
    by apply andb_true_iff in Hall as [-> _]. }
  assert (startsWithDigit (digits ++ rest) = true) as Hstart'.
  { destruct digits as [|a digits]; [done|]. exact Hstart. }
  rewrite !parseInt_digits by done. f_equal. by apply digitsValue_app.
Qed.

End EnteredText.

(** ** What [TableEdit] renders, whatever the helpers of [./state] do *)

Section Rendering.
Import TableBlock TableEdit.
Context {helpers : StateHelpers}.

Lemma renderSection_shown (attrs : Attributes) (name : SectionName) :
  isEmptyTableSection (getSection attrs name) = false ->
  renderSection attrs name =
    Some (mkSectionView (sectionTagName name)
            (imap (fun row r => imap (renderCell name row) (cells r))
               (getSection attrs name))).
Proof. intros Hshown. unfold renderSection. by rewrite Hshown. Qed.

(** X9. In a section that is rendered, the cell view at row [r] and
    column [c] shows the content and the tag of the cell stored at row
    [r] and column [c] of that section, and focusing it selects exactly
    that cell: section name, row index and column index. *)
Theorem rendered_cell_selects_itself (st : EditState) (attrs : Attributes)
    (name : SectionName) (r c : nat) (row : Row) (stored : Cell) :
  isEmptyTableSection (getSection attrs name) = false ->
  getSection attrs name !! r = Some row ->
  cells row !! c = Some stored ->
  exists view cellView,
    renderSection attrs name = Some view
    /\ (cellViews ← rowViews view !! r; cellViews !! c) = Some cellView
    /\ value cellView = content stored
    /\ tagName cellView = tag stored
    /\ selectedCell (finalState (onFocusCell cellView st))
       = Some (mkCellSelection (Some name) r c).
Proof.
  intros Hshown Hrow Hcell. eexists. exists (renderCell name r c stored).
  split; [by apply renderSection_shown|]. split; [|done].
  cbn [rowViews]. rewrite list_lookup_imap, Hrow. simpl.
  by rewrite list_lookup_imap, Hcell.
Qed.

(** The rows and cells of a rendered section are those of the section. *)
Lemma rendered_cell_origin (attrs : Attributes) (name : SectionName)
    (view : SectionView) (cellViews : list CellView) (cellView : CellView) :
  renderSection attrs name = Some view ->
  cellViews ∈ rowViews view ->
  cellView ∈ cellViews ->
  exists r c row stored,
    getSection attrs name !! r = Some row
    /\ cells row !! c = Some stored
    /\ cellView = renderCell name r c stored.
Proof.
  unfold renderSection.
  destruct (isEmptyTableSection (getSection attrs name)); [done|].
  intros [= <-] Hrows Hcells. cbn [rowViews] in Hrows.
  apply elem_of_lookup_imap in Hrows as (r & row & -> & Hrow).
  apply elem_of_lookup_imap in Hcells as (c & stored & -> & Hstored).
  by exists r, c, row, stored.
Qed.

(** The cell view found at row [r] and column [c] of a rendered section
    is the rendering of the cell stored at row [r] and column [c]. *)
Lemma rendered_cell_at (attrs : Attributes) (name : SectionName)
    (view : SectionView) (r c : nat) (cellView : CellView) :
  renderSection attrs name = Some view ->
  (cellViews ← rowViews view !! r; cellViews !! c) = Some cellView ->
  exists row stored,
    getSection attrs name !! r = Some row
    /\ cells row !! c = Some stored
    /\ cellView = renderCell name r c stored.
Proof.
  unfold renderSection.
  destruct (isEmptyTableSection (getSection attrs name)); [done|].
  intros [= <-]. cbn [rowViews]. rewrite list_lookup_imap.
  destruct (getSection attrs name !! r) as [row|] eqn:Hrow; [|done]. simpl.
  rewrite list_lookup_imap.
  destruct (cells row !! c) as [stored|] eqn:Hstored; [|done]. simpl.
  intros [= <-]. by exists row, stored.
Qed.

(** X10. A rendered cell carries a [scope] only if it is a header cell
    ([th]).  The cell view at row [r] and column [c] of a rendered
    section has the tag of the cell stored at row [r] and column [c]; it
    has the scope that cell holds when the cell is a header cell, and no
    scope when it is a data cell, even if the cell holds one.  Hence no
    rendered data cell has a scope, and a rendered cell with a scope is a
    header cell. *)
Theorem scope_only_on_header_cells (attrs : Attributes) (name : SectionName)
    (view : SectionView) :
  renderSection attrs name = Some view ->
  (forall r c cellView,
     (cellViews ← rowViews view !! r; cellViews !! c) = Some cellView ->
     exists row stored,
       getSection attrs name !! r = Some row
       /\ cells row !! c = Some stored
       /\ tagName cellView = tag stored
       /\ scopeProp cellView
          = match tag stored with th => scope stored | td => None end)
  /\ (forall cellViews cellView,
        cellViews ∈ rowViews view ->
        cellView ∈ cellViews ->
        (tagName cellView = td -> scopeProp cellView = None)
        /\ (is_Some (scopeProp cellView) -> tagName cellView = th)).
Proof.
  intros Hview. split.
  - intros r c cellView Hat.
    destruct (rendered_cell_at _ _ _ _ _ _ Hview Hat)
      as (row & stored & Hrow & Hstored & ->).
    exists row, stored. split; [done|]. split; [done|]. split; [done|].
    simpl. by destruct (tag stored).
  - intros cellViews cellView Hrows Hcells.
    destruct (rendered_cell_origin _ _ _ _ _ Hview Hrows Hcells)
      as (r & c & row & stored & Hrow & Hstored & ->).
    simpl. split.
    + intros ->. done.
    + destruct (tag stored); [done|]. simpl. by intros [? ?].
Qed.

(** X11. When the table is rendered, its three section slots are, in
    this order, head, body and foot; a slot is vacant exactly when its
    section is empty, and one slot at least is filled. *)
Theorem shown_table_has_a_section (st : EditState) (controls : Controls)
    (sections : list (option SectionView)) (captionValue : string) :
  render st = TableView controls sections captionValue ->
  sections = [renderSection (attributes st) Head;
              renderSection (attributes st) Body;
              renderSection (attributes st) Foot]
  /\ (forall name,
        renderSection (attributes st) name = None <->
        isEmptyTableSection (getSection (attributes st) name) = true)
  /\ (exists view, Some view ∈ sections)
  /\ captionValue = caption (attributes st).
Proof.
  unfold render. destruct (isEmpty (attributes st)) eqn:Hempty; [done|].
  intros [= <- <- <-]. split; [done|]. split; [|split; [|done]].
  - intros name. unfold renderSection.
    by destruct (isEmptyTableSection (getSection (attributes st) name)).
  - unfold isEmpty in Hempty. simpl. unfold renderSection. simpl.
    destruct (isEmptyTableSection (head (attributes st)));
      [|eexists; apply elem_of_cons; left; reflexivity].
    destruct (isEmptyTableSection (body (attributes st)));
      [|eexists; rewrite !elem_of_cons; right; left; reflexivity].
    destruct (isEmptyTableSection (foot (attributes st))); [done|].
    eexists. rewrite !elem_of_cons. right. right. left. reflexivity.
Qed.

(** X12. Once the block is no longer selected, or the caption has the
    focus, no cell is selected: the table menu is rendered disabled and
    each of the six cell actions returns without doing anything; the
    attributes are those from before.  While the block stays selected the
    effect changes nothing. *)
Theorem deselection_disables_actions (st : EditState) (newContent : string)
    (newAlign : option string) (delta : nat) :
  onSelectionChange true st = Normal tt st
  /\ finalState (onFocusCaption st) = finalState (onSelectionChange false st)
  /\ (let st1 := finalState (onSelectionChange false st) in
      attributes st1 = attributes st
      /\ hostCalls st1 = hostCalls st
      /\ (forall controls sections captionValue,
            render st1 = TableView controls sections captionValue ->
            tableControlsDisabled controls = true)
      /\ onChange newContent st1 = Normal tt st1
      /\ onChangeColumnAlignment newAlign st1 = Normal tt st1
      /\ onInsertRow delta st1 = Normal tt st1
      /\ onDeleteRow st1 = Normal tt st1
      /\ onInsertColumn delta st1 = Normal tt st1
      /\ onDeleteColumn st1 = Normal tt st1).
Proof.
  split; [done|]. split; [done|]. simpl.
  split; [done|]. split; [done|]. split.
  - intros controls sections captionValue. unfold render. simpl.
    destruct (isEmpty (attributes st)); [done|]. by intros [= <- _ _].
  - by apply unselected_skips.
Qed.

(** X13. [onChangeFixedLayout] flips the fixed-layout toggle and nothing
    else: sections, caption and selection are kept, the same sections are
    rendered, and a second call brings back the view of before. *)
Theorem fixed_layout_toggle (st : EditState) :
  let st1 := finalState (onChangeFixedLayout st) in
  head (attributes st1) = head (attributes st)
  /\ body (attributes st1) = body (attributes st)
  /\ foot (attributes st1) = foot (attributes st)
  /\ caption (attributes st1) = caption (attributes st)
  /\ selectedCell st1 = selectedCell st
  /\ (forall controls sections captionValue,
        render st = TableView controls sections captionValue ->
        exists controls',
          render st1 = TableView controls' sections captionValue
          /\ fixedLayoutChecked controls' = negb (fixedLayoutChecked controls)
          /\ tableControlsDisabled controls' = tableControlsDisabled controls
          /\ headerSectionChecked controls' = headerSectionChecked controls
          /\ footerSectionChecked controls' = footerSectionChecked controls)
  /\ render (finalState (onChangeFixedLayout st1)) = render st.
Proof.
  simpl. repeat (split; [done|]). split.
  - intros controls sections captionValue. unfold render, isEmpty. simpl.
    destruct (isEmptyTableSection (head (attributes st))
              && isEmptyTableSection (body (attributes st))
              && isEmptyTableSection (foot (attributes st))); [done|].
    intros [= <- <- <-]. eexists. split; [reflexivity|]. done.
  - unfold render, isEmpty. simpl. by rewrite negb_involutive.
Qed.

End Rendering.

(** ** The link picker screen from mount to the end of the interactions *)

Section LinkPickerLife.
Import LinkPickerScreen.

Lemma runTask_frame (task : Task) (h : Host) :
  navigation (runTask task h) = navigation h
  /\ afterInteractions (runTask task h) = afterInteractions h.
Proof.
  unfold runTask. revert h. induction task as [|[b] task IH]; intros h; [done|].
  simpl. destruct (IH (mkHost (navigation h) (afterInteractions h) b)) as [-> ->].
  done.
Qed.

Lemma runTasks_frame (tasks : list Task) (h : Host) :
  navigation (foldl (fun h task => runTask task h) h tasks) = navigation h
  /\ afterInteractions (foldl (fun h task => runTask task h) h tasks)
     = afterInteractions h.
Proof.
  revert h. induction tasks as [|task tasks IH]; intros h; [done|].
  simpl. destruct (IH (runTask task h)) as [-> ->]. apply runTask_frame.
Qed.

(** Running the waiting tasks makes no navigation call and leaves no
    task waiting. *)
Lemma interactionsDone_frame (h : Host) :
  navigation (interactionsDone h) = navigation h
  /\ afterInteractions (interactionsDone h) = [].
Proof.
  unfold interactionsDone.
  destruct (runTasks_frame (afterInteractions h)
              (mkHost (navigation h) [] (isChildrenScrollable h))) as [-> ->].
  done.
Qed.

(** X14. The screen makes its children scrollable when it mounts, and
    neither picking a link nor cancelling changes that at once: the flag
    is still true when the callback returns, the navigation call being
    already made, and turns false when the interaction manager runs the
    waiting tasks, which adds no navigation call and leaves no task
    behind. *)
Theorem scrollable_until_interactions_end (props : Props) (link : Link)
    (h : Host) :
  (let picked := onLinkPicked props link (onMount h) in
   isChildrenScrollable picked = true
   /\ last (navigation picked)
      = Some (navigate (returnScreenName props) (mkParams (url link) (title link)))
   /\ isChildrenScrollable (interactionsDone picked) = false
   /\ navigation (interactionsDone picked) = navigation picked
   /\ afterInteractions (interactionsDone picked) = [])
  /\ (let cancelled := onCancel (onMount h) in
      isChildrenScrollable cancelled = true
      /\ last (navigation cancelled) = Some goBack
      /\ isChildrenScrollable (interactionsDone cancelled) = false
      /\ navigation (interactionsDone cancelled) = navigation cancelled
      /\ afterInteractions (interactionsDone cancelled) = []).
Proof.
  split; simpl.
  - split; [done|]. split; [apply last_snoc|].
    split.
    { unfold interactionsDone. simpl. by rewrite foldl_app. }
    apply (interactionsDone_frame (onLinkPicked props link (onMount h))).
  - split; [done|]. split; [apply last_snoc|].
    split.
    { unfold interactionsDone. simpl. by rewrite foldl_app. }
    apply (interactionsDone_frame (onCancel (onMount h))).
Qed.

(** X15. The rendered element is memoized on the input value of the
    route alone.  A render with the same input value gives back the
    element of the earlier render, so that picking a link still navigates
    to the [returnScreenName] of that earlier render, whatever the props
    are by now; a render with another input value takes the props of the
    day. *)
Theorem memoized_element_keeps_props (props props' : Props)
    (inputValue inputValue' : string) (link : Link) (h : Host) :
  let first := renderScreen props inputValue None in
  value (memoized first) = inputValue
  /\ renderScreen props' inputValue (Some first) = first
  /\ elementOnLinkPicked
       (memoized (renderScreen props' inputValue (Some first))) link h
     = onLinkPicked props link h
  /\ elementWithPadding (memoized (renderScreen props' inputValue (Some first)))
     = withPadding props
  /\ (inputValue' <> inputValue ->
      value (memoized (renderScreen props' inputValue' (Some first))) = inputValue'
      /\ elementOnLinkPicked
           (memoized (renderScreen props' inputValue' (Some first))) link h
         = onLinkPicked props' link h).
Proof.
  cbv zeta. split; [done|].
  assert (renderScreen props' inputValue (Some (renderScreen props inputValue None))
          = renderScreen props inputValue None) as Hsame.
  { unfold renderScreen. simpl. by rewrite bool_decide_eq_true_2. }
  split; [exact Hsame|]. rewrite Hsame. split; [done|]. split; [done|].
  intros Hne. unfold renderScreen. simpl.
  rewrite bool_decide_eq_false_2 by done. done.
Qed.

End LinkPickerLife.

(** ** The same on sample tables and texts *)

Section MoreSamples.
Import TableBlock TableEdit.

Lemma column_insertion_forgets_section_sample :
  let selected := mkCellSelection (Some Body) 0 1 in
  let st := mkEditState State.exampleTable (NumberValue 2) (NumberValue 2)
              (Some selected) [] in
  let st1 := finalState (onInsertColumn 1 st) in
  selectedCell st1 = Some (mkCellSelection None 0 2)
  /\ onInsertRow 1 st1 = Throw st1
  /\ selectedCell (finalState (onDeleteRow st1)) = None.
Proof.
  intros selected st st1.
  destruct (column_insertion_forgets_section (helpers := State.helpers)
              st selected 1 1
              (State.insertColumn State.exampleTable 2) eq_refl eq_refl)
    as (_ & Hrow & Hdelete).
  split; [reflexivity|]. split.
  - etransitivity; [exact Hrow | reflexivity].
  - change (onDeleteRow st1) with
      (onDeleteRow (finalState (onInsertColumn 1 st))).
    rewrite Hdelete. reflexivity.
Defined.

Lemma row_insertions_accumulate_sample :
  let selected := mkCellSelection (Some Body) 0 1 in
  let st := mkEditState State.exampleTable (NumberValue 2) (NumberValue 2)
              (Some selected) [] in
  selectedCell (finalState (onInsertRow 1 (finalState (onInsertRow 1 st))))
  = Some (mkCellSelection (Some Body) 2 0).
Proof.
  intros selected st.
  rewrite (row_insertions_accumulate (helpers := State.helpers) st selected 1 1
             (State.insertRow State.exampleTable Body 1) eq_refl eq_refl).
  reflexivity.
Defined.

Lemma negative_count_kept_sample :
  orElse (parseInt (StringValue "-3")) 2 = (-3)%Z
  /\ (orElse (parseInt (StringValue "-3")) 2 < 0)%Z.
Proof.
  apply (negative_count_kept "3" 3); [reflexivity | reflexivity | discriminate].
Defined.

Lemma text_after_digits_ignored_sample :
  parseInt (StringValue "3.7") = parseInt (StringValue "3").
Proof.
  apply (text_after_digits_ignored "3" ".7");
    [reflexivity | discriminate | reflexivity].
Defined.

Lemma rendered_cell_selects_itself_sample :
  exists view cellView,
    renderSection State.exampleTable Body = Some view
    /\ (cellViews ← rowViews view !! 0; cellViews !! 1) = Some cellView
    /\ value cellView = "1815"
    /\ tagName cellView = td
    /\ selectedCell (finalState (onFocusCell cellView (mount State.exampleTable)))
       = Some (mkCellSelection (Some Body) 0 1).
Proof.
  apply (rendered_cell_selects_itself (helpers := State.helpers)
           (mount State.exampleTable)
           State.exampleTable Body 0 1
           (mkRow [mkCell "Ada" td None None; mkCell "1815" td None (Some "right")])
           (mkCell "1815" td None (Some "right")));
    reflexivity.
Defined.

Lemma scope_only_on_header_cells_sample :
  let attrs := mkAttributes false ""
                 [mkRow [mkCell "Name" th (Some "col") None]]
                 [mkRow [mkCell "Ada" td (Some "row") None]] [] in
  (exists view cellView,
     renderSection attrs Head = Some view
     /\ (cellViews ← rowViews view !! 0; cellViews !! 0) = Some cellView
     /\ tagName cellView = th /\ scopeProp cellView = Some "col")
  /\ (exists view cellView,
        renderSection attrs Body = Some view
        /\ (cellViews ← rowViews view !! 0; cellViews !! 0) = Some cellView
        /\ tagName cellView = td /\ scopeProp cellView = None).
Proof.
  intros attrs. split.
  - exists (mkSectionView "thead"
              [[renderCell Head 0 0 (mkCell "Name" th (Some "col") None)]]),
      (renderCell Head 0 0 (mkCell "Name" th (Some "col") None)).
    split; [reflexivity|]. split; [reflexivity|].
    destruct (proj1 (scope_only_on_header_cells (helpers := State.helpers)
                       attrs Head _ eq_refl) 0 0 _ eq_refl)
      as (row & stored & Hrow & Hstored & Htag & Hscope).
    injection Hrow as <-. injection Hstored as <-.
    split; [exact Htag | exact Hscope].
  - exists (mkSectionView "tbody"
              [[renderCell Body 0 0 (mkCell "Ada" td (Some "row") None)]]),
      (renderCell Body 0 0 (mkCell "Ada" td (Some "row") None)).
    split; [reflexivity|]. split; [reflexivity|].
    destruct (proj1 (scope_only_on_header_cells (helpers := State.helpers)
                       attrs Body _ eq_refl) 0 0 _ eq_refl)
      as (row & stored & Hrow & Hstored & Htag & Hscope).
    injection Hrow as <-. injection Hstored as <-.
    split; [exact Htag | exact Hscope].
Defined.

Lemma shown_table_has_a_section_sample :
  exists view,
    Some view ∈ [renderSection State.exampleTable Head;
                 renderSection State.exampleTable Body;
                 renderSection State.exampleTable Foot].
Proof.
  destruct (shown_table_has_a_section (helpers := State.helpers)
              (mount State.exampleTable)
              (mkControls true false true false)
              (renderSection State.exampleTable <$> [Head; Body; Foot])
              "People" eq_refl)
    as (_ & _ & Hview & _).
  exact Hview.
Defined.

End MoreSamples.
